(** * Acid Test: mint checkout orchestration and persistence gateway

    A shallow embedding of the mint modal component (the checkout
    orchestrator and its post-mint pipeline) and of the Prisma-backed
    persistence helpers, with the properties of the specification stated
    over it.

    Conventions of the embedding.
    - A JavaScript [number] holding an amount of money is an exact rational
      ([Q]) and the arithmetic on it is exact, where the engine rounds the
      result of every operation to a binary64 value.  The two agree as
      long as the intermediate results are representable (integer prices
      and quantities below 2^53 in particular) and can differ in the last
      place otherwise: 0.1 * 3 * 10 ** 6 is 300000 here and
      300000.00000000006 in the engine.  A division by zero, which
      JavaScript turns into [Infinity] or [NaN], is [None].  Quantities,
      ids and database amounts are integers ([Z]).
    - Code that can throw returns a [Result] carrying the message (the
      database helpers) or an [option], [None] being the throw (the
      conversions of the component).
    - A React handler or effect is a function from the render snapshot it
      closes over (props, state and hook values) and from the outcomes of
      the calls it awaits to the ordered list of commands it issues
      ([Cmd]): state setters, wallet and API calls, timers, notices.
    - The database is a record of finite maps, threaded through the
      helpers by a state-and-error monad; each helper runs atomically. *)

From Stdlib Require Import ZArith QArith Qround Qcanon String Ascii List Lia.
From stdpp Require Import base decidable option list gmap sorting pretty strings.

Import ListNotations.
Local Open Scope Z_scope.
Local Open Scope string_scope.
Local Open Scope list_scope.

(* ===================================================================== *)
(** * Part I: the persistence gateway *)
(* ===================================================================== *)

Module Db.

(** Results of fallible code: a value, or the message of the thrown
    [Error]. *)
Inductive Result (A : Type) : Type :=
| Ok (a : A)
| Throw (message : string).
Arguments Ok {A} a.
Arguments Throw {A} message.

(** Modelled from the spec: the Prisma schema and the row types
    ([DbUser], [DbSong], [DbCollection] of "../types") are absent.  A user
    is identified by its unique social id [fid], a collection row is
    unique per (user, song) (the compound key [userId_songId] the helpers
    query), its [userId] is the fid of its user (the helpers look the user
    of a collection up by [getUser collection.userId], a lookup by fid),
    and it carries a cumulative integer [amount]. *)
Record DbUser : Type := mkUser {
  fid : Z;
  notificationDetails : option string
}.

(** A song row keeps its featured artists as JSON text in [feat], or
    null. *)
Record DbSong : Type := mkSong {
  id : Z;
  title : string;
  feat : option string
}.

Record DbCollection : Type := mkCollection {
  userId : Z;
  songId : Z;
  amount : Z
}.

Record Store : Type := mkStore {
  user : gmap Z DbUser;                    (* prisma.user, by fid *)
  song : gmap Z DbSong;                    (* prisma.song, by id *)
  collection : gmap (Z * Z) Z              (* prisma.collection, by (userId, songId) *)
}.

Definition emptyStore : Store := mkStore ∅ ∅ ∅.

(** The state-and-error monad of the helpers. *)
Definition M (A : Type) : Type := Store -> Result (A * Store).

Definition ret {A} (a : A) : M A := fun st => Ok (a, st).
Definition throw {A} (message : string) : M A := fun _ => Throw message.
Definition bind {A B} (m : M A) (k : A -> M B) : M B :=
  fun st => match m st with
            | Ok (a, st') => k a st'
            | Throw e => Throw e
            end.

Notation "'let!' x ':=' m 'in' k" := (bind m (fun x => k))
  (at level 10, x name, m at level 100, k at level 200).

(** The Prisma calls the helpers make. *)
Definition user_findUnique (f : Z) : M (option DbUser) :=
  fun st => Ok (user st !! f, st).

(** A collection row together with its included [user] relation. *)
Record Collector : Type := mkCollector {
  row : DbCollection;
  included_user : option DbUser
}.

(** The row stored under a key, with the user it refers to. *)
Definition withUser (st : Store) (kv : Z * Z * Z) : Collector :=
  mkCollector (mkCollection (fst (fst kv)) (snd (fst kv)) (snd kv))
              (user st !! fst (fst kv)).

(** The stored rows of a song. *)
Definition songRows (st : Store) (s : Z) : list (Z * Z * Z) :=
  filter (fun kv : Z * Z * Z => snd (fst kv) = s) (map_to_list (collection st)).

(** [prisma.song.findUnique] with
    [include: { collectors: { include: { user: true } } }]: the song and
    its collection rows, each with its user. *)
Definition song_findUnique (i : Z) : M (option (DbSong * list Collector)) :=
  fun st => Ok ((fun s => (s, withUser st <$> songRows st i)) <$> song st !! i, st).

Definition collection_findUnique (u s : Z) : M (option DbCollection) :=
  fun st => Ok (mkCollection u s <$> collection st !! (u, s), st).

(** [update] rejects when the row is missing, [create] when the unique key
    is taken. *)
Definition collection_update (u s a : Z) : M DbCollection :=
  fun st => match collection st !! (u, s) with
            | Some _ =>
                Ok (mkCollection u s a,
                    mkStore (user st) (song st) (<[(u, s) := a]> (collection st)))
            | None => Throw "Record to update not found."
            end.

Definition collection_create (u s a : Z) : M DbCollection :=
  fun st => match collection st !! (u, s) with
            | None =>
                Ok (mkCollection u s a,
                    mkStore (user st) (song st) (<[(u, s) := a]> (collection st)))
            | Some _ => Throw "Unique constraint failed"
            end.

Definition user_create (u : DbUser) : M DbUser :=
  fun st => match user st !! fid u with
            | None => Ok (u, mkStore (<[fid u := u]> (user st)) (song st) (collection st))
            | Some _ => Throw "Unique constraint failed"
            end.

Definition song_create (s : DbSong) : M DbSong :=
  fun st => match song st !! id s with
            | None => Ok (s, mkStore (user st) (<[id s := s]> (song st)) (collection st))
            | Some _ => Throw "Unique constraint failed"
            end.

(** ** The helpers *)

Definition getUser (f : Z) : M (option DbUser) := user_findUnique f.

Definition createUser (u : DbUser) : M DbUser := user_create u.

Definition createSong (s : DbSong) : M DbSong := song_create s.

Definition isInCollection (u s : Z) : M bool :=
  let! c := collection_findUnique u s in
  ret (match c with Some _ => true | None => false end).

Definition getCollection (u s : Z) : M (option DbCollection) :=
  collection_findUnique u s.

Section Songs.

(** [JSON.parse]: the value a text stands for, or the [SyntaxError] the
    engine throws on a text that is not JSON.  The parsed values and the
    error's message are the engine's, so the parser is a parameter. *)
Context {Json : Type} (JSON_parse : string -> Result Json).

(** What [getSong] returns: the song's columns, its [feat] parsed, and
    its collectors. *)
Record DbSongWithCollectors : Type := mkSongWithCollectors {
  columns : DbSong;
  parsed_feat : option Json;
  collectors : list Collector
}.

(** [feat: song.feat ? JSON.parse(song.feat) : null]: null and the empty
    text are falsy and give null, any other text is parsed, and a text
    the parser rejects makes [getSong] throw. *)
Definition getSong (i : Z) : M (option DbSongWithCollectors) :=
  let! song := song_findUnique i in
  match song with
  | None => ret None
  | Some (song, song_collectors) =>
      match feat song with
      | None => ret (Some (mkSongWithCollectors song None song_collectors))
      | Some text =>
          if String.eqb text ""
          then ret (Some (mkSongWithCollectors song None song_collectors))
          else
            match JSON_parse text with
            | Ok parsed =>
                ret (Some (mkSongWithCollectors song (Some parsed) song_collectors))
            | Throw e => throw e
            end
      end
  end.

Definition createCollection (c : DbCollection) : M DbCollection :=
  let! existingCollection := isInCollection (userId c) (songId c) in
  if (existingCollection : bool) then
    let! res := getCollection (userId c) (songId c) in
    match res with
    | None => throw "Collection exists but couldn't be retrieved"
    | Some res =>
        collection_update (userId c) (songId c) (amount res + amount c)
    end
  else
    let! u := getUser (userId c) in
    match u with
    | None => throw ("User with ID " +:+ pretty (userId c) +:+ " does not exist")
    | Some _ =>
        let! s := getSong (songId c) in
        match s with
        | None => throw ("Song with ID " +:+ pretty (songId c) +:+ " does not exist")
        | Some _ => collection_create (userId c) (songId c) (amount c)
        end
    end.

End Songs.

Arguments DbSongWithCollectors : clear implicits.

(** Array.prototype.findIndex: the index of the first element that
    satisfies the predicate, -1 when there is none. *)
Fixpoint findIndex_from {A} (p : A -> bool) (l : list A) (i : Z) : Z :=
  match l with
  | [] => -1
  | x :: l' => if p x then i else findIndex_from p l' (i + 1)
  end.

Definition findIndex {A} (p : A -> bool) (l : list A) : Z := findIndex_from p l 0.

Record CollectionWithPosition : Type := mkCollectionWithPosition {
  cwp_collection : option Collector;
  position : option Z
}.

(** The predicate of the search for a user's row: [c.user?.fid === fid]. *)
Definition matchesFid (f : Z) (c : Collector) : bool :=
  match included_user c with
  | Some u => (fid u =? f)%Z
  | None => false
  end.

Section Queries.

(** The database's [ORDER BY amount DESC]: the order among rows of equal
    amount is the database's choice, so the ordering is a parameter. *)
Variable orderByAmountDesc : list Collector -> list Collector.

(** [prisma.collection.findMany] with [where: { songId }],
    [include: { user: true }] and [orderBy: { amount: "desc" }]. *)
Definition collection_findMany_bySong (s : Z) : M (list Collector) :=
  fun st =>
    Ok (orderByAmountDesc (withUser st <$> songRows st s), st).

Definition getCollectorsBySongId (s : Z) : M (list Collector) :=
  collection_findMany_bySong s.

Definition getUserCollectionWithPosition (s f : Z) : M CollectionWithPosition :=
  let! collectors := collection_findMany_bySong s in
  let position := findIndex (matchesFid f) collectors in
  let collection :=
    if (position =? -1)%Z then None else collectors !! Z.to_nat position in
  ret (mkCollectionWithPosition
         collection
         (if (position =? -1)%Z then None else Some (position + 1))).

(** The collectors of a song as the queries see them. *)
Definition collectorsOf (st : Store) (s : Z) : list Collector :=
  orderByAmountDesc (withUser st <$> songRows st s).

End Queries.

(** One admissible ordering, for running the queries: a merge sort on
    the amounts. *)
Definition amount_desc (x y : Collector) : Prop := amount (row y) <= amount (row x).

#[global] Instance amount_desc_dec x y : Decision (amount_desc x y).
Proof. unfold amount_desc. apply _. Defined.

Definition sortByAmountDesc : list Collector -> list Collector :=
  merge_sort amount_desc.

(** The store with a collection row written. *)
Definition withCollection (st : Store) (u s a : Z) : Store :=
  mkStore (user st) (song st) (<[(u, s) := a]> (collection st)).

(** A store to run the helpers on: three collectors of song 7. *)
Definition sampleStore : Store :=
  mkStore (list_to_map [(1, mkUser 1 None); (2, mkUser 2 None); (3, mkUser 3 None)])
          (list_to_map [(7, mkSong 7 "Acid Test" None); (8, mkSong 8 "B side" None)])
          (list_to_map [((1, 7), 3); ((2, 7), 9); ((3, 7), 5); ((1, 8), 50)]).

(** [JSON.parse] on the texts of the sample stores, to run the helpers
    with: the empty array is the one text it accepts. *)
Definition sampleJsonParse (text : string) : Result (list string) :=
  if String.eqb text "[]" then Ok [] else Throw "Unexpected token in JSON".

(** The sample store with one more song, whose [feat] is not JSON. *)
Definition unparsableFeatStore : Store :=
  mkStore (user sampleStore)
          (<[9 := mkSong 9 "Remix" (Some "ft. somebody")]> (song sampleStore))
          (collection sampleStore).

(** ** Integrity of a store *)

(** Users are filed under their fid, and every collection row refers to
    a user and a song of the store. *)
Definition keyedByFid (st : Store) : Prop :=
  map_Forall (fun k u => fid u = k) (user st).

Definition collectorsRegistered (st : Store) : Prop :=
  map_Forall (fun (k : Z * Z) (_ : Z) =>
                is_Some (user st !! fst k) /\ is_Some (song st !! snd k))
             (collection st).

Definition consistent (st : Store) : Prop :=
  keyedByFid st /\ collectorsRegistered st.

(** ** The rank in the words of the specification *)

(** The amounts of the collectors of a song, and how many of them are
    above, or not below, a given amount: whatever the order among equal
    amounts, a 1-based rank by descending amount lies strictly above the
    first count and at most at the second. *)
Definition amountsOf (st : Store) (s : Z) : list Z :=
  snd <$> songRows st s.

Definition strictlyAbove (st : Store) (s a : Z) : nat :=
  length (filter (fun x => a < x) (amountsOf st s)).

Definition atOrAbove (st : Store) (s a : Z) : nat :=
  length (filter (fun x => a <= x) (amountsOf st s)).

End Db.

(* ===================================================================== *)
(** * Part II: the mint modal *)
(* ===================================================================== *)

Module Mint.

Inductive PaymentMethod : Type := ETH | USDC.

Inductive MintState : Type := Initial | Confirm | Success.

(** [status] of a wagmi [useWriteContract]. *)
Inductive WriteStatus : Type := WriteIdle | WritePending | WriteError | WriteSuccess.

(** [status] of a [useWaitForTransactionReceipt]; [isPending] and
    [isSuccess] are tests on it. *)
Inductive ReceiptStatus : Type := ReceiptPending | ReceiptError | ReceiptSuccess.

(** What one render of [MintModal] closes over: its props, its state and
    the values of its hooks. *)
Record Snapshot : Type := mkSnapshot {
  (* props *)
  isOpen : bool;
  mintQuantity : Z;
  songName : string;
  paymentMethod : PaymentMethod;
  userAddress : option string;
  tokenId : Z;
  usdPrice : Q;
  ethUsd : Q;
  (* useState *)
  mintState : MintState;
  postMintExecuted : bool;
  sendCallsId : option string;
  isSendCallsPending : bool;
  (* hooks *)
  userFid : option Z;
  balanceData : option Z;                 (* balanceData.value *)
  usdcBalance : option Z;
  usdcAllowance : option Z;
  allowanceTxHash : option string;
  allowanceError : option string;         (* allowanceError.message *)
  allowanceStatus : WriteStatus;
  allowanceTxResult : ReceiptStatus;
  mintTxHash : option string;
  mintError : option string;              (* mintError.message *)
  mintStatus : WriteStatus;
  mintTxResult : ReceiptStatus
}.

(** ** Numbers *)

(** [BigInt(x)]: the integer [x] when [x] is one, a [RangeError]
    otherwise. *)
Definition BigInt (x : Q) : option Z :=
  if (Qden (Qred x) =? 1)%positive then Some (Qnum (Qred x)) else None.

(** [Math.ceil] *)
Definition Math_ceil (x : Q) : Q := inject_Z (Qceiling x).

Definition pow10 (n : Z) : Q := inject_Z (10 ^ n).

(** [price = usdPrice / ethUsd]; [safePrice = price + price * 0.01], the
    quotient, the product and the sum taken exactly. *)
Definition price (s : Snapshot) : option Q :=
  if Qeq_bool (ethUsd s) 0 then None else Some (usdPrice s / ethUsd s)%Q.

Definition safePrice (s : Snapshot) : option Q :=
  match price s with
  | Some p => Some (p + p * (1 # 100))%Q
  | None => None
  end.

(** The amounts in minor units, as each place of the component writes
    them, the products taken exactly. *)
Definition usdcAmountNumber (s : Snapshot) : Q :=
  (usdPrice s * inject_Z (mintQuantity s) * pow10 6)%Q.

Definition ethAmountNumber (s : Snapshot) (amount : Z) : option Q :=
  match safePrice s with
  | Some sp => Some (sp * inject_Z amount * pow10 18)%Q
  | None => None
  end.

(** [BigInt(usdPrice * mintQuantity * 10 ** 6)] of the two approve calls. *)
Definition approveAmount (s : Snapshot) : option Z := BigInt (usdcAmountNumber s).

(** [BigInt(Math.ceil(safePrice * amount * 10 ** 18))] *)
Definition requiredEthFor (s : Snapshot) (amount : Z) : option Z :=
  match ethAmountNumber s amount with
  | Some x => BigInt (Math_ceil x)
  | None => None
  end.

Definition requiredEth (s : Snapshot) : option Z := requiredEthFor s (mintQuantity s).

(** [BigInt(Math.ceil(usdPrice * mintQuantity * 10 ** 6))] *)
Definition requiredUsdc (s : Snapshot) : option Z :=
  BigInt (Math_ceil (usdcAmountNumber s)).

Definition requiredAllowance (s : Snapshot) : option Z :=
  BigInt (Math_ceil (usdcAmountNumber s)).

(** The [value] of the mint call. *)
Definition mintValue (s : Snapshot) (amount : Z) : option Z :=
  match paymentMethod s with
  | ETH => requiredEthFor s amount
  | USDC => Some 0
  end.

(** ** Affordability.  [None] is a throw during render. *)

Definition truthy_bigint (b : option Z) : bool :=
  match b with
  | Some v => negb (v =? 0)%Z
  | None => false
  end.

Definition is_some {A} (o : option A) : bool :=
  match o with Some _ => true | None => false end.

Definition hasEnoughEthBalance (s : Snapshot) : option bool :=
  match balanceData s, userAddress s with
  | Some value, Some _ =>
      match requiredEth s with
      | Some r => Some (r <=? value)%Z
      | None => None
      end
  | _, _ => Some false
  end.

Definition hasEnoughUsdcBalance (s : Snapshot) : option bool :=
  if negb (truthy_bigint (usdcBalance s)) || negb (is_some (userAddress s))
  then Some false
  else match requiredUsdc s, usdcBalance s with
       | Some r, Some b => Some (r <=? b)%Z
       | _, _ => None
       end.

Definition hasEnoughUsdcAllowance (s : Snapshot) : option bool :=
  if negb (truthy_bigint (usdcAllowance s)) || negb (is_some (userAddress s))
  then Some false
  else match requiredAllowance s, usdcAllowance s with
       | Some r, Some a => Some (r <=? a)%Z
       | _, _ => None
       end.

(** ** Commands *)

(** The two contracts of "@/lib/constants", by name. *)
Inductive Address : Type := CONTRACT_ADDRESS | USDC_CONTRACT_ADDRESS.

(** The contract calls the component encodes. *)
Inductive Call : Type :=
| approve (spender : Address) (amount : Z)
| mint (buyer : string) (token quantity : Z) (isWETH : bool).

(** The callbacks handed to [setTimeout]: the poll itself, and the
    arrow function of its [catch] branch. *)
Inductive Callback : Type := CheckCallsStatus | RefetchAndClear.

Inductive Cmd : Type :=
| SetMintState (m : MintState)
| SetPostMintExecuted (b : bool)
| SetIsSendCallsPending (b : bool)
| SetSendCallsId (i : string)
| Toast (message : string)
| RefetchAllowance
| WriteContractAllowance (address : Address) (call : Call)
| WriteContractMint (address : Address) (call : Call) (value : Z)
| SendCalls (calls : list (Address * Call))
| GetCallsStatus (i : string)
| SetTimeout (callback : Callback) (ms : Z)
| PromptToAddMiniApp
| CreateUserMutation (fid : Z)
| CreateCollectionMutation (userId songId amount : Z)
| RefetchCollectors
| RefetchUserCollector
| RefetchTotalMints
| SendNotificationMutation (title text : string) (delay : Z) (fids : list Z)
| TrackEvent (name : string) (fid songId quantity : Z)
             (method : PaymentMethod) (totalUsd : Q)
| ResetMint
| OnClose.

Definition Trace : Type := list Cmd.

(** ** What awaited calls can answer *)

(** A thrown value: an [Error] with its message, or anything else. *)
Inductive Thrown : Type :=
| ErrorObject (message : string)
| OtherValue.

Inductive SendCallsOutcome : Type :=
| SendCallsResolves (i : string)
| SendCallsRejects (e : Thrown).

Inductive CallsStatusOutcome : Type :=
| CallsSuccess
| CallsPending
| CallsFailure
| CallsOtherStatus
| CallsStatusRejects.

Record CollectionDetails : Type := mkDetails {
  details_position : option Z;
  details_amount : option Z
}.

(** The outcomes of the four awaited steps of the post-mint logic; for
    the collection mutation, [None] is a rejection and [Some d] the
    resolved value, itself nullable. *)
Record PipelineOutcome : Type := mkOutcome {
  promptResolves : bool;
  createUserResolves : bool;
  createCollectionResult : option (option CollectionDetails);
  sendNotificationResolves : bool
}.

(** ** Strings *)

(** [String.prototype.includes] *)
Fixpoint includes (needle hay : string) : bool :=
  if String.prefix needle hay then true
  else match hay with
       | EmptyString => false
       | String _ rest => includes needle rest
       end.

Definition dquote : string := String "034"%char EmptyString.

Definition sendCallsUnsupported : string :=
  "Method " +:+ dquote +:+ "wallet_sendCalls" +:+ dquote +:+ " is not supported".

Definition userRejected : string := "The user rejected the request".

(** The ordinal suffix of the notification text; [%] is the remainder
    of JavaScript, whose sign is that of the dividend. *)
Definition ordinalSuffix (n : Z) : string :=
  if (Z.rem n 10 =? 1)%Z && negb (Z.rem n 100 =? 11)%Z then "st"
  else if (Z.rem n 10 =? 2)%Z && negb (Z.rem n 100 =? 12)%Z then "nd"
  else if (Z.rem n 10 =? 3)%Z && negb (Z.rem n 100 =? 13)%Z then "rd"
  else "th".

(** [newUserPosition ? ... : ...]: [null], [undefined] and 0 are falsy. *)
Definition leaderboardText (newUserPosition : option Z) : string :=
  match newUserPosition with
  | Some p =>
      if (p =? 0)%Z then "You're now on the leaderboard"
      else "You're in " +:+ pretty p +:+ ordinalSuffix p +:+ " place on the leaderboard"
  | None => "You're now on the leaderboard"
  end.

Definition notificationTitle (s : Snapshot) : string :=
  "You minted " +:+ pretty (mintQuantity s) +:+ " " +:+
  (if (1 <? mintQuantity s)%Z then "editions" else "edition") +:+
  " of " +:+ songName s +:+ "!".

(** ** The post-mint logic *)

(** [userFid] is falsy when undefined or 0. *)
Definition truthy_fid (f : option Z) : option Z :=
  match f with
  | Some v => if (v =? 0)%Z then None else Some v
  | None => None
  end.

Definition signUpUser (f : Z) (o : PipelineOutcome) : Trace :=
  CreateUserMutation f ::
  (if createUserResolves o then [] else [Toast "Error signing up user"]).

Definition createCollection (s : Snapshot) (f : Z) (o : PipelineOutcome)
  : Trace * option CollectionDetails :=
  match createCollectionResult o with
  | Some collectionDetails =>
      ([CreateCollectionMutation f (tokenId s) (mintQuantity s);
        RefetchCollectors; RefetchUserCollector; RefetchTotalMints],
       collectionDetails)
  | None =>
      ([CreateCollectionMutation f (tokenId s) (mintQuantity s);
        Toast "Error creating collection"],
       None)
  end.

Definition sendNotification (s : Snapshot) (f : Z) (o : PipelineOutcome)
    (collectionDetails : option CollectionDetails) : Trace :=
  let newUserPosition :=
    match collectionDetails with
    | Some d => details_position d
    | None => None
    end in
  SendNotificationMutation (notificationTitle s) (leaderboardText newUserPosition) 0 [f] ::
  (if sendNotificationResolves o then [] else [Toast "Error sending notification"]).

Definition executePostMintLogic (s : Snapshot) (o : PipelineOutcome) : Trace :=
  match truthy_fid (userFid s) with
  | None => []
  | Some f =>
      if postMintExecuted s then []
      else
        [SetPostMintExecuted true; PromptToAddMiniApp] ++
        signUpUser f o ++
        fst (createCollection s f o) ++
        sendNotification s f o (snd (createCollection s f o)) ++
        [TrackEvent "mint" f (tokenId s) (mintQuantity s) (paymentMethod s)
                    (usdPrice s * inject_Z (mintQuantity s))%Q]
  end.

(** ** Submissions *)

Definition handleMint (s : Snapshot) (amount : Z) (isWETH : bool) : Trace :=
  match userAddress s with
  | Some a =>
      SetPostMintExecuted false ::
      match mintValue s amount with
      | Some v => [WriteContractMint CONTRACT_ADDRESS (mint a (tokenId s) amount isWETH) v]
      | None => []                        (* the throw is caught and dropped *)
      end
  | None => []
  end.

Definition handleApproveOnly (s : Snapshot) : Trace :=
  match userAddress s with
  | Some _ =>
      match approveAmount s with
      | Some n => [WriteContractAllowance USDC_CONTRACT_ADDRESS (approve CONTRACT_ADDRESS n)]
      | None => []                        (* the throw is caught and dropped *)
      end
  | None => []
  end.

(** The poll of the bundled calls; [s] is the snapshot the enclosing
    handler closed over. *)
Definition checkCallsStatus (s : Snapshot) (i : string)
    (status : CallsStatusOutcome) (o : PipelineOutcome) : Trace :=
  GetCallsStatus i ::
  match status with
  | CallsSuccess =>
      [SetIsSendCallsPending false; RefetchAllowance] ++
      executePostMintLogic s o ++
      [SetMintState Success]
  | CallsPending => [SetTimeout CheckCallsStatus 2000]
  | CallsFailure => [SetIsSendCallsPending false; Toast "Transaction failed"]
  | CallsOtherStatus => []
  | CallsStatusRejects => [SetTimeout RefetchAndClear 5000]
  end.

Definition refetchAndClear : Trace := [RefetchAllowance; SetIsSendCallsPending false].

Section Engine.

(** The message of the [RangeError] of [BigInt] on a number that is not
    an integer: it is the JavaScript engine's. *)
Variable rangeErrorMessage : Q -> string.

(** The [catch] clause of [handleApproveAndMintWithSendCalls]. *)
Definition approveAndMintCatch (s : Snapshot) (error : Thrown) : Trace :=
  SetIsSendCallsPending false ::
  match error with
  | ErrorObject message =>
      if includes sendCallsUnsupported message then handleApproveOnly s
      else if negb (includes userRejected message) then [Toast message]
      else []
  | OtherValue => []
  end.

Definition handleApproveAndMintWithSendCalls (s : Snapshot)
    (sent : SendCallsOutcome) : Trace :=
  match userAddress s with
  | None => []
  | Some a =>
      [SetPostMintExecuted false; SetIsSendCallsPending true] ++
      match approveAmount s with
      | None =>
          approveAndMintCatch s (ErrorObject (rangeErrorMessage (usdcAmountNumber s)))
      | Some n =>
          SendCalls [(USDC_CONTRACT_ADDRESS, approve CONTRACT_ADDRESS n);
                     (CONTRACT_ADDRESS, mint a (tokenId s) (mintQuantity s) false)] ::
          match sent with
          | SendCallsResolves i => [SetSendCallsId i; SetTimeout CheckCallsStatus 2000]
          | SendCallsRejects e => approveAndMintCatch s e
          end
      end
  end.

End Engine.

(** ** Renders: the state after a command, a prop or a hook changes *)

Definition with_isOpen (v : bool) (s : Snapshot) : Snapshot :=
  mkSnapshot v (mintQuantity s) (songName s) (paymentMethod s)
    (userAddress s) (tokenId s) (usdPrice s) (ethUsd s) (mintState s)
    (postMintExecuted s) (sendCallsId s) (isSendCallsPending s) (userFid s)
    (balanceData s) (usdcBalance s) (usdcAllowance s) (allowanceTxHash s)
    (allowanceError s) (allowanceStatus s) (allowanceTxResult s)
    (mintTxHash s) (mintError s) (mintStatus s) (mintTxResult s).

Definition with_mintQuantity (v : Z) (s : Snapshot) : Snapshot :=
  mkSnapshot (isOpen s) v (songName s) (paymentMethod s) (userAddress s)
    (tokenId s) (usdPrice s) (ethUsd s) (mintState s) (postMintExecuted s)
    (sendCallsId s) (isSendCallsPending s) (userFid s) (balanceData s)
    (usdcBalance s) (usdcAllowance s) (allowanceTxHash s) (allowanceError s)
    (allowanceStatus s) (allowanceTxResult s) (mintTxHash s) (mintError s)
    (mintStatus s) (mintTxResult s).

Definition with_paymentMethod (v : PaymentMethod) (s : Snapshot) : Snapshot :=
  mkSnapshot (isOpen s) (mintQuantity s) (songName s) v (userAddress s)
    (tokenId s) (usdPrice s) (ethUsd s) (mintState s) (postMintExecuted s)
    (sendCallsId s) (isSendCallsPending s) (userFid s) (balanceData s)
    (usdcBalance s) (usdcAllowance s) (allowanceTxHash s) (allowanceError s)
    (allowanceStatus s) (allowanceTxResult s) (mintTxHash s) (mintError s)
    (mintStatus s) (mintTxResult s).

Definition with_mintState (v : MintState) (s : Snapshot) : Snapshot :=
  mkSnapshot (isOpen s) (mintQuantity s) (songName s) (paymentMethod s)
    (userAddress s) (tokenId s) (usdPrice s) (ethUsd s) v
    (postMintExecuted s) (sendCallsId s) (isSendCallsPending s) (userFid s)
    (balanceData s) (usdcBalance s) (usdcAllowance s) (allowanceTxHash s)
    (allowanceError s) (allowanceStatus s) (allowanceTxResult s)
    (mintTxHash s) (mintError s) (mintStatus s) (mintTxResult s).

Definition with_postMintExecuted (v : bool) (s : Snapshot) : Snapshot :=
  mkSnapshot (isOpen s) (mintQuantity s) (songName s) (paymentMethod s)
    (userAddress s) (tokenId s) (usdPrice s) (ethUsd s) (mintState s) v
    (sendCallsId s) (isSendCallsPending s) (userFid s) (balanceData s)
    (usdcBalance s) (usdcAllowance s) (allowanceTxHash s) (allowanceError s)
    (allowanceStatus s) (allowanceTxResult s) (mintTxHash s) (mintError s)
    (mintStatus s) (mintTxResult s).

Definition with_sendCallsId (v : option string) (s : Snapshot) : Snapshot :=
  mkSnapshot (isOpen s) (mintQuantity s) (songName s) (paymentMethod s)
    (userAddress s) (tokenId s) (usdPrice s) (ethUsd s) (mintState s)
    (postMintExecuted s) v (isSendCallsPending s) (userFid s)
    (balanceData s) (usdcBalance s) (usdcAllowance s) (allowanceTxHash s)
    (allowanceError s) (allowanceStatus s) (allowanceTxResult s)
    (mintTxHash s) (mintError s) (mintStatus s) (mintTxResult s).

Definition with_isSendCallsPending (v : bool) (s : Snapshot) : Snapshot :=
  mkSnapshot (isOpen s) (mintQuantity s) (songName s) (paymentMethod s)
    (userAddress s) (tokenId s) (usdPrice s) (ethUsd s) (mintState s)
    (postMintExecuted s) (sendCallsId s) v (userFid s) (balanceData s)
    (usdcBalance s) (usdcAllowance s) (allowanceTxHash s) (allowanceError s)
    (allowanceStatus s) (allowanceTxResult s) (mintTxHash s) (mintError s)
    (mintStatus s) (mintTxResult s).

Definition with_allowanceTxResult (v : ReceiptStatus) (s : Snapshot) : Snapshot :=
  mkSnapshot (isOpen s) (mintQuantity s) (songName s) (paymentMethod s)
    (userAddress s) (tokenId s) (usdPrice s) (ethUsd s) (mintState s)
    (postMintExecuted s) (sendCallsId s) (isSendCallsPending s) (userFid s)
    (balanceData s) (usdcBalance s) (usdcAllowance s) (allowanceTxHash s)
    (allowanceError s) (allowanceStatus s) v (mintTxHash s) (mintError s)
    (mintStatus s) (mintTxResult s).

Definition with_allowanceError (v : option string) (s : Snapshot) : Snapshot :=
  mkSnapshot (isOpen s) (mintQuantity s) (songName s) (paymentMethod s)
    (userAddress s) (tokenId s) (usdPrice s) (ethUsd s) (mintState s)
    (postMintExecuted s) (sendCallsId s) (isSendCallsPending s) (userFid s)
    (balanceData s) (usdcBalance s) (usdcAllowance s) (allowanceTxHash s) v
    (allowanceStatus s) (allowanceTxResult s) (mintTxHash s) (mintError s)
    (mintStatus s) (mintTxResult s).

Definition with_mintError (v : option string) (s : Snapshot) : Snapshot :=
  mkSnapshot (isOpen s) (mintQuantity s) (songName s) (paymentMethod s)
    (userAddress s) (tokenId s) (usdPrice s) (ethUsd s) (mintState s)
    (postMintExecuted s) (sendCallsId s) (isSendCallsPending s) (userFid s)
    (balanceData s) (usdcBalance s) (usdcAllowance s) (allowanceTxHash s)
    (allowanceError s) (allowanceStatus s) (allowanceTxResult s)
    (mintTxHash s) v (mintStatus s) (mintTxResult s).

Definition with_mintStatus (v : WriteStatus) (s : Snapshot) : Snapshot :=
  mkSnapshot (isOpen s) (mintQuantity s) (songName s) (paymentMethod s)
    (userAddress s) (tokenId s) (usdPrice s) (ethUsd s) (mintState s)
    (postMintExecuted s) (sendCallsId s) (isSendCallsPending s) (userFid s)
    (balanceData s) (usdcBalance s) (usdcAllowance s) (allowanceTxHash s)
    (allowanceError s) (allowanceStatus s) (allowanceTxResult s)
    (mintTxHash s) (mintError s) v (mintTxResult s).

Definition with_mintTxResult (v : ReceiptStatus) (s : Snapshot) : Snapshot :=
  mkSnapshot (isOpen s) (mintQuantity s) (songName s) (paymentMethod s)
    (userAddress s) (tokenId s) (usdPrice s) (ethUsd s) (mintState s)
    (postMintExecuted s) (sendCallsId s) (isSendCallsPending s) (userFid s)
    (balanceData s) (usdcBalance s) (usdcAllowance s) (allowanceTxHash s)
    (allowanceError s) (allowanceStatus s) (allowanceTxResult s)
    (mintTxHash s) (mintError s) (mintStatus s) v.

Definition with_mintTxHash (v : option string) (s : Snapshot) : Snapshot :=
  mkSnapshot (isOpen s) (mintQuantity s) (songName s) (paymentMethod s)
    (userAddress s) (tokenId s) (usdPrice s) (ethUsd s) (mintState s)
    (postMintExecuted s) (sendCallsId s) (isSendCallsPending s) (userFid s)
    (balanceData s) (usdcBalance s) (usdcAllowance s) (allowanceTxHash s)
    (allowanceError s) (allowanceStatus s) (allowanceTxResult s) v
    (mintError s) (mintStatus s) (mintTxResult s).

Definition with_usdPrice (v : Q) (s : Snapshot) : Snapshot :=
  mkSnapshot (isOpen s) (mintQuantity s) (songName s) (paymentMethod s)
    (userAddress s) (tokenId s) v (ethUsd s) (mintState s) (postMintExecuted
    s) (sendCallsId s) (isSendCallsPending s) (userFid s) (balanceData s)
    (usdcBalance s) (usdcAllowance s) (allowanceTxHash s) (allowanceError s)
    (allowanceStatus s) (allowanceTxResult s) (mintTxHash s) (mintError s)
    (mintStatus s) (mintTxResult s).

Definition applyCmd (c : Cmd) (s : Snapshot) : Snapshot :=
  match c with
  | SetMintState m => with_mintState m s
  | SetPostMintExecuted b => with_postMintExecuted b s
  | SetIsSendCallsPending b => with_isSendCallsPending b s
  | SetSendCallsId i => with_sendCallsId (Some i) s
  | ResetMint =>
      (* wagmi's [reset]: no hash, no error, idle; the receipt of no hash
         is pending *)
      with_mintTxResult ReceiptPending
        (with_mintTxHash None (with_mintError None (with_mintStatus WriteIdle s)))
  | _ => s
  end.

Definition applyTrace (t : Trace) (s : Snapshot) : Snapshot :=
  fold_left (fun s c => applyCmd c s) t s.

(** ** Effects *)

Definition receipt_isSuccess (r : ReceiptStatus) : bool :=
  match r with ReceiptSuccess => true | _ => false end.

Definition receipt_isPending (r : ReceiptStatus) : bool :=
  match r with ReceiptPending => true | _ => false end.

Definition write_isPending (w : WriteStatus) : bool :=
  match w with WritePending => true | _ => false end.

(** After the approval succeeds, mint automatically. *)
Definition allowanceTxResultEffect (s : Snapshot) : Trace :=
  if receipt_isSuccess (allowanceTxResult s)
  then RefetchAllowance :: handleMint s (mintQuantity s) false
  else [].

Definition refetchOnOpenEffect (s : Snapshot) : Trace := [RefetchAllowance].

Definition mintErrorEffect (s : Snapshot) : Trace :=
  match mintError s with
  | Some message =>
      SetPostMintExecuted false ::
      (if negb (includes userRejected message) then [Toast message] else [])
  | None => []
  end.

Definition allowanceErrorEffect (s : Snapshot) : Trace :=
  match allowanceError s with
  | Some message =>
      if negb (includes userRejected message) then [Toast message] else []
  | None => []
  end.

Definition mintStatusEffect (s : Snapshot) : Trace :=
  match mintStatus s with
  | WritePending => [SetMintState Confirm]
  | WriteError => [SetMintState Initial]
  | _ => []
  end.

Definition is_Success (m : MintState) : bool :=
  match m with Success => true | _ => false end.

Definition is_Initial (m : MintState) : bool :=
  match m with Initial => true | _ => false end.

Definition mintTxResultEffect (s : Snapshot) (o : PipelineOutcome) : Trace :=
  let postMint :=
    match mintTxResult s with
    | ReceiptSuccess =>
        if negb (is_Success (mintState s)) && negb (postMintExecuted s)
        then SetMintState Success :: executePostMintLogic s o
        else []
    | ReceiptError =>
        if negb (is_Initial (mintState s))
        then [Toast "Minting failed"; SetMintState Initial]
        else []
    | ReceiptPending => []
    end in
  if negb (postMintExecuted s) then postMint else [].

Definition isOpenEffect (s : Snapshot) : Trace :=
  if isOpen s then [SetPostMintExecuted false] else [].

Definition handleClose (s : Snapshot) : Trace :=
  [SetMintState Initial; ResetMint; OnClose].

(** ** The mint action of the checkout view *)

Definition txInFlight (hash : option string) (r : ReceiptStatus) : bool :=
  is_some hash && receipt_isPending r.

Definition mintButtonDisabled (s : Snapshot) : option bool :=
  match paymentMethod s with
  | ETH =>
      match hasEnoughEthBalance s with
      | Some enough =>
          Some (negb enough
                || write_isPending (mintStatus s)
                || txInFlight (mintTxHash s) (mintTxResult s))
      | None => None
      end
  | USDC =>
      match hasEnoughUsdcBalance s with
      | Some enough =>
          Some (negb enough
                || isSendCallsPending s
                || write_isPending (allowanceStatus s)
                || txInFlight (allowanceTxHash s) (allowanceTxResult s)
                || write_isPending (mintStatus s)
                || txInFlight (mintTxHash s) (mintTxResult s))
      | None => None
      end
  end.

Definition mintButtonLabel (s : Snapshot) : option string :=
  match paymentMethod s with
  | ETH =>
      match hasEnoughEthBalance s with
      | Some enough =>
          Some (if negb enough then "INSUFFICIENT ETH BALANCE" else "MINT WITH ETH")
      | None => None
      end
  | USDC =>
      match hasEnoughUsdcBalance s with
      | Some enough =>
          Some (if negb enough then "INSUFFICIENT USDC BALANCE"
                else if isSendCallsPending s then "MINTING"
                else if write_isPending (allowanceStatus s)
                        || txInFlight (allowanceTxHash s) (allowanceTxResult s)
                     then "APPROVING"
                else "MINT WITH USDC")
      | None => None
      end
  end.

Section Machine.

Variable rangeErrorMessage : Q -> string.

Definition mintButtonOnClick (s : Snapshot) (sent : SendCallsOutcome) : Trace :=
  match paymentMethod s with
  | ETH => handleMint s (mintQuantity s) false
  | USDC =>
      match hasEnoughUsdcAllowance s with
      | Some false => handleApproveAndMintWithSendCalls rangeErrorMessage s sent
      | Some true => handleMint s (mintQuantity s) false
      | None => []
      end
  end.

(** The button exists in the open modal's [Initial] view only, and a
    disabled button does not run its handler. *)
Definition clickMintButton (s : Snapshot) (sent : SendCallsOutcome) : Trace :=
  if isOpen s && is_Initial (mintState s) then
    match mintButtonDisabled s with
    | Some false => mintButtonOnClick s sent
    | _ => []
    end
  else [].

(** ** The component as a machine *)

(** The current render, the closure of the live poll of bundled calls
    (the snapshot and batch id its handler closed over), and whether the
    5-second timer of a rejected status query is outstanding. *)
Record Machine : Type := mkMachine {
  current : Snapshot;
  poller : option (Snapshot * string);
  clearOutstanding : bool
}.

Inductive Event : Type :=
| IsOpenChanges (b : bool)
| ClickMint (sent : SendCallsOutcome)
| ClickClose
| SelectQuantity (q : Z)
| SelectPaymentMethod (p : PaymentMethod)
| AllowanceReceiptChanges (r : ReceiptStatus)
| AllowanceErrorChanges (e : option string)
| MintErrorChanges (e : option string)
| MintStatusChanges (w : WriteStatus)
| MintReceiptEffect (r : ReceiptStatus) (o : PipelineOutcome)
| CheckCallsStatusFires (status : CallsStatusOutcome) (o : PipelineOutcome)
| RefetchAndClearFires.

Definition is_pollTimer (c : Cmd) : bool :=
  match c with SetTimeout CheckCallsStatus _ => true | _ => false end.

Definition is_clearTimer (c : Cmd) : bool :=
  match c with SetTimeout RefetchAndClear _ => true | _ => false end.

Definition rendered (m : Machine) (s : Snapshot) (t : Trace) : Machine * Trace :=
  (mkMachine (applyTrace t s) (poller m) (clearOutstanding m), t).

Definition step (m : Machine) (e : Event) : Machine * Trace :=
  let s := current m in
  match e with
  | IsOpenChanges b =>
      if Bool.eqb b (isOpen s) then (m, [])
      else let s' := with_isOpen b s in
           rendered m s' (refetchOnOpenEffect s' ++ isOpenEffect s')
  | ClickMint sent =>
      let t := clickMintButton s sent in
      (mkMachine (applyTrace t s)
                 (match sent with
                  | SendCallsResolves i =>
                      if existsb is_pollTimer t then Some (s, i) else poller m
                  | SendCallsRejects _ => poller m
                  end)
                 (clearOutstanding m), t)
  | ClickClose =>
      if isOpen s then rendered m s (handleClose s) else (m, [])
  | SelectQuantity q => rendered m (with_mintQuantity q s) []
  | SelectPaymentMethod p => rendered m (with_paymentMethod p s) []
  | AllowanceReceiptChanges r =>
      let s' := with_allowanceTxResult r s in
      if Bool.eqb (receipt_isSuccess r) (receipt_isSuccess (allowanceTxResult s))
      then rendered m s' []
      else rendered m s' (allowanceTxResultEffect s')
  | AllowanceErrorChanges e =>
      let s' := with_allowanceError e s in
      rendered m s' (allowanceErrorEffect s')
  | MintErrorChanges e =>
      let s' := with_mintError e s in
      rendered m s' (mintErrorEffect s')
  | MintStatusChanges w =>
      let s' := with_mintStatus w s in
      rendered m s' (mintStatusEffect s')
  | MintReceiptEffect r o =>
      let s' := with_mintTxResult r s in
      rendered m s' (mintTxResultEffect s' o)
  | CheckCallsStatusFires status o =>
      match poller m with
      | Some (closure, i) =>
          let t := checkCallsStatus closure i status o in
          (mkMachine (applyTrace t s)
                     (if existsb is_pollTimer t then poller m else None)
                     (clearOutstanding m || existsb is_clearTimer t), t)
      | None => (m, [])
      end
  | RefetchAndClearFires =>
      if clearOutstanding m
      then (mkMachine (applyTrace refetchAndClear s) (poller m) false, refetchAndClear)
      else (m, [])
  end.

(** The log of a run: each event with the commands it issued. *)
Fixpoint run (m : Machine) (events : list Event) : list (Event * Trace) :=
  match events with
  | [] => []
  | e :: rest => (e, snd (step m e)) :: run (fst (step m e)) rest
  end.

End Machine.

(** Bookkeeping on logs. *)
Definition is_pipelineStart (c : Cmd) : bool :=
  match c with PromptToAddMiniApp => true | _ => false end.


Definition is_toast (c : Cmd) : bool :=
  match c with Toast _ => true | _ => false end.

Definition pipelineStarts (t : Trace) : nat := length (List.filter is_pipelineStart t).

Definition from_receipt (e : Event) : bool :=
  match e with MintReceiptEffect _ _ => true | _ => false end.


Definition startsFrom (source : Event -> bool) (log : list (Event * Trace)) : nat :=
  list_sum (map (fun et : Event * Trace =>
                   if source (fst et) then pipelineStarts (snd et) else 0%nat) log).


Definition is_step (c : Cmd) : bool :=
  match c with
  | PromptToAddMiniApp | CreateUserMutation _ | CreateCollectionMutation _ _ _
  | SendNotificationMutation _ _ _ _ | TrackEvent _ _ _ _ _ _ => true
  | _ => false
  end.

(** The calls that put a transaction before the wallet. *)
Definition is_submission (c : Cmd) : bool :=
  match c with
  | WriteContractAllowance _ _ | WriteContractMint _ _ _ | SendCalls _ => true
  | _ => false
  end.

(** The position the collection mutation returned, if any. *)
Definition returnedPosition (o : PipelineOutcome) : option Z :=
  match createCollectionResult o with
  | Some (Some d) => details_position d
  | _ => None
  end.

(** Some step of the pipeline fails. *)
Definition someStepFails (o : PipelineOutcome) : bool :=
  negb (promptResolves o) || negb (createUserResolves o)
  || negb (is_some (createCollectionResult o)) || negb (sendNotificationResolves o).

(** ** A checkout to run the component on *)

(** An open modal in its [Initial] view: 2 editions at 4 USD, paid in
    USDC from a balance of 10 USDC with no allowance yet; ETH at 2000 USD
    and a balance of 1 ETH. *)
Definition checkout : Snapshot :=
  mkSnapshot true 2 "Acid Test" USDC (Some "0xbuyer") 7 (4 # 1) (2000 # 1)
    Initial false None false
    (Some 42) (Some (10 ^ 18)) (Some 10000000) (Some 0)
    None None WriteIdle ReceiptPending
    None None WriteIdle ReceiptPending.

(** The same checkout while its approval waits for a receipt. *)
Definition approving : Snapshot :=
  mkSnapshot true 2 "Acid Test" USDC (Some "0xbuyer") 7 (4 # 1) (2000 # 1)
    Initial false None false
    (Some 42) (Some (10 ^ 18)) (Some 10000000) (Some 0)
    (Some "0xapproval") None WriteSuccess ReceiptPending
    None None WriteIdle ReceiptPending.

Definition allResolve : PipelineOutcome :=
  mkOutcome true true (Some (Some (mkDetails (Some 1) (Some 2)))) true.

(** A [RangeError] message to run the handlers with (V8's names the
    number as well). *)
Definition engineMessage (x : Q) : string :=
  "The number cannot be converted to a BigInt because it is not an integer".

(** ** The poll on a clock *)

(** The commands of a bundled submission and of the polls that follow
    it, each stamped with the earliest time (ms) at which it can run: a
    timer fires when its delay has elapsed and awaited calls take no
    time.  [answers] are the successive answers of the status query. *)
Fixpoint first_timer (t : Trace) : option (Callback * Z) :=
  match t with
  | [] => None
  | SetTimeout cb ms :: _ => Some (cb, ms)
  | _ :: rest => first_timer rest
  end.

Fixpoint pollClock (closure : Snapshot) (i : string)
    (answers : list (CallsStatusOutcome * PipelineOutcome))
    (now : Z) (t : Trace) {struct answers} : list (Z * Cmd) :=
  map (pair now) t ++
  match first_timer t with
  | Some (CheckCallsStatus, ms) =>
      match answers with
      | (status, o) :: rest =>
          pollClock closure i rest (now + ms) (checkCallsStatus closure i status o)
      | [] => []
      end
  | Some (RefetchAndClear, ms) => map (pair (now + ms)) refetchAndClear
  | None => []
  end.









End Mint.

(* ===================================================================== *)
(** * Part II-b: the rest of the persistence gateway *)
(* ===================================================================== *)

Module Gateway.
Import Db.

(** [prisma.user.update] with [where: { fid }]: rejects when no user has
    the fid, otherwise replaces the stored notification details. *)
Definition user_update (f : Z) (details : option string) : M DbUser :=
  fun st => match user st !! f with
            | Some u =>
                Ok (mkUser (fid u) details,
                    mkStore (<[f := mkUser (fid u) details]> (user st))
                            (song st) (collection st))
            | None => Throw "Record to update not found."
            end.

(** [prisma.user.findMany] with [where: { fid: { in: fids } }], in the
    order of the table. *)
Definition user_findMany_in (fids : list Z) : M (list DbUser) :=
  fun st => Ok (filter (fun u => fid u ∈ fids) (snd <$> map_to_list (user st)), st).

Record FrameNotificationDetails : Type := mkFrameDetails {
  url : string;
  token : string
}.

Record UserFrameNotificationDetails : Type := mkUserDetails {
  details_fid : Z;
  details_url : string;
  details_token : string
}.

(** [Array.prototype.map] with a callback that can throw: the first throw
    ends the traversal. *)
Fixpoint mapThrowing {A B} (f : A -> Result B) (l : list A) : Result (list B) :=
  match l with
  | [] => Ok []
  | x :: rest =>
      match f x with
      | Throw e => Throw e
      | Ok y =>
          match mapThrowing f rest with
          | Throw e => Throw e
          | Ok ys => Ok (y :: ys)
          end
      end
  end.

(** The entries that are not [null]. *)
Definition nonNull {A} (l : list (option A)) : list A := omap (fun x => x) l.

Section Json.

(** [JSON.stringify] on notification details, and [JSON.parse] read as
    details; [None] is its [SyntaxError]. *)
Variable JSON_stringify : FrameNotificationDetails -> string.
Variable JSON_parse : string -> option FrameNotificationDetails.

(** [JSON.parse] on any other text, as [getSong] calls it. *)
Context {Json : Type} (JSON_parse_any : string -> Result Json).

Definition setUserNotificationDetails (f : Z)
    (notificationDetails : FrameNotificationDetails) : M DbUser :=
  user_update f (Some (JSON_stringify notificationDetails)).

Definition deleteUserNotificationDetails (f : Z) : M DbUser :=
  user_update f None.

(** The callback of the [map]: [null] for a user whose stored details
    are [null] or the empty string, the parsed details otherwise. *)
Definition userDetails (u : DbUser) : Result (option UserFrameNotificationDetails) :=
  match notificationDetails u with
  | None => Ok None
  | Some stored =>
      if String.eqb stored "" then Ok None
      else match JSON_parse stored with
           | Some parsedDetails =>
               Ok (Some (mkUserDetails (fid u) (url parsedDetails) (token parsedDetails)))
           | None => Throw "SyntaxError"
           end
  end.

Definition getUsersNotificationDetails (fids : list Z)
  : M (list UserFrameNotificationDetails) :=
  let! users := user_findMany_in fids in
  fun st => match mapThrowing userDetails users with
            | Ok mapped => Ok (nonNull mapped, st)
            | Throw e => Throw e
            end.

(** ** Sequences of writes *)

Inductive Write : Type :=
| WriteUser (u : DbUser)
| WriteSong (s : DbSong)
| WriteCollection (c : DbCollection)
| WriteDetails (f : Z) (d : FrameNotificationDetails)
| ClearDetails (f : Z).

(** The store a write leaves: the new one when the helper returns, the
    old one when it throws. *)
Definition stored {A} (m : M A) (st : Store) : Store :=
  match m st with
  | Ok (_, st') => st'
  | Throw _ => st
  end.

Definition applyWrite (st : Store) (w : Write) : Store :=
  match w with
  | WriteUser u => stored (createUser u) st
  | WriteSong s => stored (createSong s) st
  | WriteCollection c => stored (createCollection JSON_parse_any c) st
  | WriteDetails f d => stored (setUserNotificationDetails f d) st
  | ClearDetails f => stored (deleteUserNotificationDetails f) st
  end.

Definition applyWrites (ws : list Write) (st : Store) : Store :=
  fold_left applyWrite ws st.

End Json.

(** The JSON text of one value of notification details, and
    [JSON.stringify] and [JSON.parse] on that value and that text, to run
    the helpers with. *)
Definition sampleDetails : FrameNotificationDetails :=
  mkFrameDetails "https://api.example/notify" "secret".

Definition sampleJson : string :=
  "{" +:+ Mint.dquote +:+ "url" +:+ Mint.dquote +:+ ":" +:+
  Mint.dquote +:+ "https://api.example/notify" +:+ Mint.dquote +:+ "," +:+
  Mint.dquote +:+ "token" +:+ Mint.dquote +:+ ":" +:+
  Mint.dquote +:+ "secret" +:+ Mint.dquote +:+ "}".

Definition sampleStringify (d : FrameNotificationDetails) : string := sampleJson.

Definition sampleParse (text : string) : option FrameNotificationDetails :=
  if String.eqb text sampleJson then Some sampleDetails else None.

(** The sample store with text that is not JSON stored for user 2. *)
Definition brokenStore : Store :=
  mkStore (<[2 := mkUser 2 (Some "not json")]> (user sampleStore))
          (song sampleStore) (collection sampleStore).

(** ** The global state *)

(** Modelled from the spec: the schema of the [state] table is absent; a
    row carries the key the database assigns and the prelaunch flag, and
    the table is read in its own order. *)
Record DbState : Type := mkState {
  state_id : Z;
  isPrelaunch : bool
}.

Definition StateTable : Type := list DbState.

Definition state_findFirst (t : StateTable) : option DbState := head t.

Definition nextStateId (t : StateTable) : Z :=
  1 + foldr Z.max 0 (state_id <$> t).

Definition state_create (b : bool) (t : StateTable) : DbState * StateTable :=
  (mkState (nextStateId t) b, t ++ [mkState (nextStateId t) b]).

(** [prisma.state.update] with [where: { id }]. *)
Definition state_update (i : Z) (b : bool) (t : StateTable) : DbState * StateTable :=
  (mkState i b,
   (fun row => if (state_id row =? i)%Z then mkState i b else row) <$> t).

Definition getState (t : StateTable) : DbState * StateTable :=
  match state_findFirst t with
  | None => state_create true t
  | Some state => (state, t)
  end.

Definition updateState (b : bool) (t : StateTable) : DbState * StateTable :=
  match state_findFirst t with
  | None => state_create b t
  | Some state => state_update (state_id state) b t
  end.

End Gateway.

(* ===================================================================== *)
(** * Part II-c: the rest of the mint modal, and the admin page *)
(* ===================================================================== *)

Module Checkout.
Import Mint.

(** ** The poll and its flag *)

(** The discipline of the in-flight flag: while a poll is live or the
    5-second timer is outstanding the flag is set, and the two are never
    live together. *)
Definition pollDiscipline (m : Machine) : Prop :=
  (is_some (poller m) || clearOutstanding m = true ->
   isSendCallsPending (current m) = true)
  /\ is_some (poller m) && clearOutstanding m = false.

Definition sets_mintState (c : Cmd) : bool :=
  match c with SetMintState _ => true | _ => false end.

Definition sets_flag (c : Cmd) : bool :=
  match c with SetIsSendCallsPending _ => true | _ => false end.

(** A checkout whose guard is still set from an earlier mint. *)
Definition guarded : Snapshot := with_postMintExecuted true checkout.

(** The checkout of a buyer who is not on Farcaster. *)
Definition withoutFid : Snapshot :=
  mkSnapshot true 2 "Acid Test" USDC (Some "0xbuyer") 7 (4 # 1) (2000 # 1)
    Initial false None false
    None (Some (10 ^ 18)) (Some 10000000) (Some 0)
    None None WriteIdle ReceiptPending
    None None WriteIdle ReceiptPending.

(** A confirmed mint of a buyer who is not on Farcaster. *)
Definition outsideFarcaster : Snapshot :=
  mkSnapshot true 2 "Acid Test" USDC (Some "0xbuyer") 7 (4 # 1) (2000 # 1)
    Confirm false None false
    None None None None
    None None WriteIdle ReceiptPending
    (Some "0xmint") None WriteSuccess ReceiptSuccess.

(** The checkout paid in ETH before any rate has arrived. *)
Definition noRate : Snapshot :=
  mkSnapshot true 2 "Acid Test" ETH (Some "0xbuyer") 7 (4 # 1) (0 # 1)
    Initial false None false
    (Some 42) (Some (10 ^ 18)) (Some 10000000) (Some 0)
    None None WriteIdle ReceiptPending
    None None WriteIdle ReceiptPending.

(** ** The quantity controls *)

Definition WAY_MORE_MIN : Z := 11.
Definition WAY_MORE_MAX : Z := 1000.
Definition presetQuantities : list Z := [1; 2; 5; 10].

(** The quantity (a prop the parent holds) and the accordion value. *)
Record QuantityView : Type := mkQuantityView {
  quantity : Z;
  wayMoreAccordionValue : string
}.

Definition truthy_string (v : string) : bool := negb (String.eqb v "").

(** The click on a preset button. *)
Definition clickPreset (q : Z) (v : QuantityView) : QuantityView :=
  mkQuantityView q "".

(** The click on WAY MORE. *)
Definition clickWayMore (v : QuantityView) : QuantityView :=
  let newValue := if truthy_string (wayMoreAccordionValue v) then "" else "more" in
  mkQuantityView
    (if String.eqb newValue "more" && (quantity v <? WAY_MORE_MIN)%Z
     then WAY_MORE_MIN else quantity v)
    newValue.

(** [onValueChange] of the slider. *)
Definition slide (value : Z) (v : QuantityView) : QuantityView :=
  mkQuantityView value (wayMoreAccordionValue v).

(** The [value] handed to the slider. *)
Definition sliderValue (v : QuantityView) : Z :=
  if (quantity v <? WAY_MORE_MIN)%Z then WAY_MORE_MIN else quantity v.

(** What the buyer can do: a preset button exists for each preset
    quantity; the slider is content of the accordion item "more", so it
    is there only while that item is the open one, and it reports values
    between its [min] and [max]. *)
Inductive QuantityEvent : Type :=
| ClickPreset (q : Z)
| ClickWayMore
| Slide (value : Z).

Definition quantityStep (v : QuantityView) (e : QuantityEvent) : QuantityView :=
  match e with
  | ClickPreset q =>
      if bool_decide (q ∈ presetQuantities) then clickPreset q v else v
  | ClickWayMore => clickWayMore v
  | Slide value =>
      if String.eqb (wayMoreAccordionValue v) "more"
         && (WAY_MORE_MIN <=? value)%Z && (value <=? WAY_MORE_MAX)%Z
      then slide value v else v
  end.

Definition quantityRun (events : list QuantityEvent) (v : QuantityView) : QuantityView :=
  fold_left quantityStep events v.

(** The bounds the controls keep: a quantity between 1 and the slider's
    maximum, and at least the slider's minimum while the accordion is
    open. *)
Definition quantityInBounds (v : QuantityView) : Prop :=
  1 <= quantity v <= WAY_MORE_MAX
  /\ (wayMoreAccordionValue v = "more" -> WAY_MORE_MIN <= quantity v).

End Checkout.

Module Admin.

Inductive AdminAction : Type := CreateSongSale | SendNotification.

(** The state of [AdminPage] that decides what it shows. *)
Record AdminState : Type := mkAdminState {
  showForm : bool;
  selectedAction : option AdminAction;
  modalOpen : bool
}.

Definition initialState : AdminState := mkAdminState false None false.

Definition handleBack (st : AdminState) : AdminState :=
  mkAdminState false None (modalOpen st).

Definition selectAction (a : AdminAction) (st : AdminState) : AdminState :=
  mkAdminState true (Some a) (modalOpen st).

(** What the page renders, in order. *)
Inductive Element : Type :=
| PermissionDenied
| BackToHome
| PrelaunchSwitch
| ActionTitle (a : AdminAction)
| GoBack
| ActionButton (a : AdminAction)
| SongSaleForm
| NotificationForm
| TransactionModal (isOpen : bool).

Definition formOf (a : AdminAction) : Element :=
  match a with
  | CreateSongSale => SongSaleForm
  | SendNotification => NotificationForm
  end.

(** The two views of an admin: the menu, and one form with its title. *)
Definition menuView (modal : bool) : list Element :=
  [BackToHome; PrelaunchSwitch;
   ActionButton CreateSongSale; ActionButton SendNotification;
   TransactionModal modal].

Definition formView (a : AdminAction) (modal : bool) : list Element :=
  [BackToHome; ActionTitle a; GoBack; formOf a; TransactionModal modal].

Definition is_CreateSongSale (o : option AdminAction) : bool :=
  match o with Some CreateSongSale => true | _ => false end.

Definition is_SendNotification (o : option AdminAction) : bool :=
  match o with Some SendNotification => true | _ => false end.

Definition render (isAdmin : bool) (st : AdminState) : list Element :=
  if negb isAdmin then [PermissionDenied]
  else
    [BackToHome] ++
    (if negb (showForm st) then [PrelaunchSwitch] else []) ++
    (match selectedAction st with Some a => [ActionTitle a] | None => [] end) ++
    (if showForm st then [GoBack] else []) ++
    (if negb (showForm st)
     then [ActionButton CreateSongSale; ActionButton SendNotification] else []) ++
    (if showForm st && is_CreateSongSale (selectedAction st) then [SongSaleForm] else []) ++
    (if showForm st && is_SendNotification (selectedAction st)
     then [NotificationForm] else []) ++
    [TransactionModal (modalOpen st)].

(** The clicks, each on an element of the page; a form on the page can
    call the [setModalOpen] it is handed, and the modal's [onClose] closes
    the transaction modal. *)
Inductive Click : Type :=
| OnGoBack
| OnActionButton (a : AdminAction)
| FormSetsModalOpen (b : bool)
| OnCloseModal.

Definition element_eqb (x y : Element) : bool :=
  match x, y with
  | GoBack, GoBack => true
  | ActionButton CreateSongSale, ActionButton CreateSongSale => true
  | ActionButton SendNotification, ActionButton SendNotification => true
  | SongSaleForm, SongSaleForm => true
  | NotificationForm, NotificationForm => true
  | _, _ => false
  end.

Definition shows (isAdmin : bool) (st : AdminState) (x : Element) : bool :=
  existsb (element_eqb x) (render isAdmin st).

(** A click acts only when its element is on the page. *)
Definition click (isAdmin : bool) (st : AdminState) (c : Click) : AdminState :=
  match c with
  | OnGoBack => if shows isAdmin st GoBack then handleBack st else st
  | OnActionButton a =>
      if shows isAdmin st (ActionButton a) then selectAction a st else st
  | FormSetsModalOpen b =>
      if shows isAdmin st SongSaleForm || shows isAdmin st NotificationForm
      then mkAdminState (showForm st) (selectedAction st) b else st
  | OnCloseModal =>
      if isAdmin then mkAdminState (showForm st) (selectedAction st) false else st
  end.

Definition clicks (isAdmin : bool) (cs : list Click) (st : AdminState) : AdminState :=
  fold_left (click isAdmin) cs st.

End Admin.

(* ===================================================================== *)
(** * Part III: properties of the persistence gateway *)
(* ===================================================================== *)

Module DbProps.
Import Db.

(** ** What [createCollection] computes *)

Section Upsert.

Context {Json : Type} (JSON_parse : string -> Result Json).

Lemma createCollection_repeat (u s a x : Z) (st : Store) :
  collection st !! (u, s) = Some x ->
  createCollection JSON_parse (mkCollection u s a) st
  = Ok (mkCollection u s (x + a), withCollection st u s (x + a)).
Proof.
  intros Hrow.
  unfold createCollection, isInCollection, getCollection, bind,
    collection_findUnique, collection_update, ret; simpl.
  repeat (rewrite Hrow; cbv [fmap option_fmap option_map]; simpl).
  reflexivity.
Qed.

(** On the first-mint path the user is looked up, then the song, whose
    [feat] is parsed before the song is tested. *)
Lemma createCollection_first (u s a : Z) (st : Store) :
  collection st !! (u, s) = None ->
  createCollection JSON_parse (mkCollection u s a) st
  = match user st !! u with
    | None => Throw ("User with ID " +:+ pretty u +:+ " does not exist")
    | Some _ =>
        match song st !! s with
        | None => Throw ("Song with ID " +:+ pretty s +:+ " does not exist")
        | Some sg =>
            match feat sg with
            | None => Ok (mkCollection u s a, withCollection st u s a)
            | Some text =>
                if String.eqb text ""
                then Ok (mkCollection u s a, withCollection st u s a)
                else match JSON_parse text with
                     | Ok _ => Ok (mkCollection u s a, withCollection st u s a)
                     | Throw e => Throw e
                     end
            end
        end
    end.
Proof.
  intros Hrow.
  unfold createCollection, isInCollection, getCollection, getUser, getSong,
    bind, collection_findUnique, user_findUnique, song_findUnique,
    collection_create, ret, throw; simpl.
  repeat (rewrite Hrow; cbv [fmap option_fmap option_map]; simpl).
  destruct (user st !! u); [|reflexivity].
  destruct (song st !! s) as [sg|]; [|reflexivity]. simpl.
  destruct (feat sg) as [text|]; [|rewrite Hrow; reflexivity].
  destruct (String.eqb text ""); [rewrite Hrow; reflexivity|].
  destruct (JSON_parse text); [rewrite Hrow|]; reflexivity.
Qed.

(** The same, when the call returns. *)
Lemma createCollection_first_returns (u s a : Z) (st st' : Store) (r : DbCollection) :
  collection st !! (u, s) = None ->
  createCollection JSON_parse (mkCollection u s a) st = Ok (r, st') ->
  is_Some (user st !! u) /\ is_Some (song st !! s)
  /\ r = mkCollection u s a /\ st' = withCollection st u s a.
Proof.
  intros Hrow. rewrite (createCollection_first _ _ _ _ Hrow).
  destruct (user st !! u); [|discriminate].
  destruct (song st !! s) as [sg|]; [|discriminate].
  destruct (feat sg) as [text|].
  - destruct (String.eqb text "").
    + intros [= <- <-]. eauto.
    + destruct (JSON_parse text); [|discriminate]. intros [= <- <-]. eauto.
  - intros [= <- <-]. eauto.
Qed.

Lemma withCollection_twice (st : Store) (u s a b : Z) :
  withCollection (withCollection st u s a) u s b = withCollection st u s b.
Proof.
  unfold withCollection; simpl. f_equal. apply insert_insert_eq.
Qed.

Lemma withCollection_lookup (st : Store) (u s a : Z) :
  collection (withCollection st u s a) !! (u, s) = Some a.
Proof. unfold withCollection; simpl. apply lookup_insert_eq. Qed.

(** C7.  The upsert accumulates.  With [stored] the amount already held
    for (user, song), counted 0 when there is no row: a call that returns
    leaves [stored + a] in the row and returns that row, and when it
    created the row it found the user and the song, and [JSON.parse]
    accepted the song's [feat] text, if it has one; a call that throws
    found no row, and either misses the user, or misses the song, or
    found the song with a [feat] text that [JSON.parse] rejects (the
    thrown error is then the parser's); and upserting [a] then [b] is the
    same computation, in result and in store, as upserting [a + b]
    once. *)
Theorem createCollection_accumulates (u s a b : Z) (st : Store) :
  let stored := default 0 (collection st !! (u, s)) in
  match createCollection JSON_parse (mkCollection u s a) st with
  | Ok (r, st') =>
      r = mkCollection u s (stored + a)
      /\ collection st' !! (u, s) = Some (stored + a)
      /\ (collection st !! (u, s) = None ->
          is_Some (user st !! u)
          /\ exists sg,
               song st !! s = Some sg
               /\ forall text, feat sg = Some text -> text <> "" ->
                               exists parsed, JSON_parse text = Ok parsed)
  | Throw e =>
      collection st !! (u, s) = None
      /\ ((user st !! u = None
           /\ e = "User with ID " +:+ pretty u +:+ " does not exist")
          \/ (is_Some (user st !! u) /\ song st !! s = None
              /\ e = "Song with ID " +:+ pretty s +:+ " does not exist")
          \/ (is_Some (user st !! u)
              /\ exists sg text,
                   song st !! s = Some sg /\ feat sg = Some text
                   /\ text <> "" /\ JSON_parse text = Throw e))
  end
  /\ (let! _ := createCollection JSON_parse (mkCollection u s a) in
      createCollection JSON_parse (mkCollection u s b)) st
     = createCollection JSON_parse (mkCollection u s (a + b)) st.
Proof.
  simpl. destruct (collection st !! (u, s)) as [x|] eqn:Hrow; simpl.
  - rewrite (createCollection_repeat _ _ _ _ _ Hrow). split.
    + split; [reflexivity|]. split; [apply withCollection_lookup | discriminate].
    + unfold bind. rewrite (createCollection_repeat _ _ _ _ _ Hrow).
      rewrite (createCollection_repeat u s b (x + a)) by apply withCollection_lookup.
      rewrite withCollection_twice.
      rewrite (createCollection_repeat _ _ _ _ _ Hrow).
      replace (x + a + b) with (x + (a + b)) by lia. reflexivity.
  - assert (Hthen : forall r, r = Ok (mkCollection u s a, withCollection st u s a) ->
              match r with
              | Ok (_, st') => createCollection JSON_parse (mkCollection u s b) st'
              | Throw e => Throw e
              end = Ok (mkCollection u s (a + b), withCollection st u s (a + b))).
    { intros r ->.
      rewrite (createCollection_repeat u s b a) by apply withCollection_lookup.
      rewrite withCollection_twice. reflexivity. }
    unfold bind. rewrite !(createCollection_first _ _ _ _ Hrow).
    destruct (user st !! u) as [usr|]; [|split; [split|]; auto].
    destruct (song st !! s) as [sg|]; [|split; [split|]; eauto 6].
    destruct (feat sg) as [text|] eqn:Hfeat.
    + destruct (String.eqb_spec text "") as [Hempty|Hfull].
      * split; [|exact (Hthen _ eq_refl)].
        split; [reflexivity|]. split; [apply withCollection_lookup|].
        intros _. split; [eauto|]. exists sg. split; [reflexivity|].
        intros text' Ht Hne. rewrite Hfeat in Ht. injection Ht as <-. contradiction.
      * destruct (JSON_parse text) as [parsed|e] eqn:Hparse.
        -- split; [|exact (Hthen _ eq_refl)].
           split; [reflexivity|]. split; [apply withCollection_lookup|].
           intros _. split; [eauto|]. exists sg. split; [reflexivity|].
           intros text' Ht _. rewrite Hfeat in Ht. injection Ht as <-. eauto.
        -- split; [|reflexivity]. split; [reflexivity|].
           right; right. split; [eauto|]. exists sg, text. auto.
    + split; [|exact (Hthen _ eq_refl)].
      split; [reflexivity|]. split; [apply withCollection_lookup|].
      intros _. split; [eauto|]. exists sg. split; [reflexivity|].
      intros text' Ht. rewrite Hfeat in Ht. discriminate Ht.
Qed.

(** C10.  Without a row for (user, song) the upsert throws when the user
    is missing, and when the song is; with a row it adds to the amount
    whatever users and songs the store holds, even none. *)
Theorem createCollection_existence_checks (u s a : Z) (st : Store) :
  (collection st !! (u, s) = None ->
   (user st !! u = None ->
    createCollection JSON_parse (mkCollection u s a) st
    = Throw ("User with ID " +:+ pretty u +:+ " does not exist"))
   /\ (is_Some (user st !! u) -> song st !! s = None ->
       createCollection JSON_parse (mkCollection u s a) st
       = Throw ("Song with ID " +:+ pretty s +:+ " does not exist")))
  /\ (forall x, collection st !! (u, s) = Some x ->
      forall users songs,
        createCollection JSON_parse (mkCollection u s a)
                         (mkStore users songs (collection st))
        = Ok (mkCollection u s (x + a),
              mkStore users songs (<[(u, s) := x + a]> (collection st)))).
Proof.
  split.
  - intros Hrow. rewrite (createCollection_first _ _ _ _ Hrow). split.
    + intros ->. reflexivity.
    + intros [w ->] ->. reflexivity.
  - intros x Hrow users songs.
    apply (createCollection_repeat u s a x (mkStore users songs (collection st))).
    exact Hrow.
Qed.

End Upsert.

(** ** Integrity is kept by the helpers that write *)

Lemma consistent_empty : consistent emptyStore.
Proof. split; apply map_Forall_empty. Qed.

Lemma consistent_createUser (u : DbUser) (st st' : Store) (r : DbUser) :
  consistent st -> createUser u st = Ok (r, st') -> consistent st'.
Proof.
  intros [Hk Hc]. unfold createUser, user_create.
  destruct (user st !! fid u) eqn:Hu; [discriminate|].
  intros [= _ <-]. split.
  - unfold keyedByFid; simpl. apply map_Forall_insert_2; [reflexivity | exact Hk].
  - unfold collectorsRegistered; simpl.
    intros k a Hka. destruct (Hc k a Hka) as [Hus Hso]. split; [|exact Hso].
    destruct (decide (fid u = fst k)) as [->|Hne].
    + rewrite lookup_insert_eq. eauto.
    + rewrite lookup_insert_ne by exact Hne. exact Hus.
Qed.

Lemma consistent_createSong (s : DbSong) (st st' : Store) (r : DbSong) :
  consistent st -> createSong s st = Ok (r, st') -> consistent st'.
Proof.
  intros [Hk Hc]. unfold createSong, song_create.
  destruct (song st !! id s) eqn:Hs; [discriminate|].
  intros [= _ <-]. split; [exact Hk|].
  unfold collectorsRegistered; simpl.
  intros k a Hka. destruct (Hc k a Hka) as [Hus Hso]. split; [exact Hus|].
  destruct (decide (id s = snd k)) as [->|Hne].
  - rewrite lookup_insert_eq. eauto.
  - rewrite lookup_insert_ne by exact Hne. exact Hso.
Qed.

Lemma consistent_createCollection {Json : Type} (JSON_parse : string -> Result Json)
    (c r : DbCollection) (st st' : Store) :
  consistent st -> createCollection JSON_parse c st = Ok (r, st') -> consistent st'.
Proof.
  intros [Hk Hc]. destruct c as [u s a].
  destruct (collection st !! (u, s)) as [x|] eqn:Hrow.
  - rewrite (createCollection_repeat _ _ _ _ _ _ Hrow). intros [= _ <-].
    split; [exact Hk|]. unfold collectorsRegistered, withCollection; simpl.
    apply map_Forall_insert_2; [exact (Hc _ _ Hrow) | exact Hc].
  - intros Hcreate.
    destruct (createCollection_first_returns _ _ _ _ _ _ _ Hrow Hcreate)
      as (Hu & Hs & _ & ->).
    split; [exact Hk|].
    unfold collectorsRegistered, withCollection; simpl.
    apply map_Forall_insert_2; [|exact Hc]. simpl. split; assumption.
Qed.

(** ** [findIndex] *)

Lemma findIndex_from_none {A} (p : A -> bool) (l : list A) (i : Z) :
  (forall x, x ∈ l -> p x = false) -> findIndex_from p l i = -1.
Proof.
  revert i. induction l as [|y l IH]; intros i Hall; simpl; [reflexivity|].
  rewrite (Hall y) by apply list_elem_of_here.
  apply IH. intros x Hx. apply Hall. by apply list_elem_of_further.
Qed.

Lemma findIndex_from_first {A} (p : A -> bool) (l1 l2 : list A) (x : A) (i : Z) :
  (forall y, y ∈ l1 -> p y = false) -> p x = true ->
  findIndex_from p (l1 ++ x :: l2) i = i + Z.of_nat (length l1).
Proof.
  revert i. induction l1 as [|y l1 IH]; intros i Hall Hx; simpl.
  - rewrite Hx. lia.
  - rewrite (Hall y) by apply list_elem_of_here.
    rewrite IH; [lia | | exact Hx].
    intros z Hz. apply Hall. by apply list_elem_of_further.
Qed.

(** ** The collectors of a song *)

Lemma elem_of_songRows (st : Store) (s u s' a : Z) :
  (u, s', a) ∈ songRows st s <-> collection st !! (u, s') = Some a /\ s' = s.
Proof.
  unfold songRows. rewrite list_elem_of_filter, elem_of_map_to_list. simpl. tauto.
Qed.

Lemma NoDup_songRows (st : Store) (s : Z) : NoDup (songRows st s).
Proof. apply NoDup_filter, NoDup_map_to_list. Qed.

#[local] Instance withUser_inj (st : Store) : Inj (=) (=) (withUser st).
Proof.
  intros [[u1 s1] a1] [[u2 s2] a2]. unfold withUser; simpl.
  intros [= -> -> -> _]. reflexivity.
Qed.

Lemma amounts_withUser (st : Store) (l : list (Z * Z * Z)) :
  (fun c => amount (row c)) <$> (withUser st <$> l) = snd <$> l.
Proof. rewrite <- list_fmap_compose. reflexivity. Qed.

Lemma filter_nil_Forall {A} (P : A -> Prop) `{!forall x, Decision (P x)} (l : list A) :
  (forall x, x ∈ l -> ~ P x) -> filter P l = [].
Proof.
  induction l as [|y l IH]; intros Hall; [reflexivity|].
  rewrite filter_cons_False by (apply Hall, list_elem_of_here).
  apply IH. intros x Hx. apply Hall. by apply list_elem_of_further.
Qed.

Lemma filter_all_Forall {A} (P : A -> Prop) `{!forall x, Decision (P x)} (l : list A) :
  (forall x, x ∈ l -> P x) -> filter P l = l.
Proof.
  induction l as [|y l IH]; intros Hall; [reflexivity|].
  rewrite filter_cons_True by (apply Hall, list_elem_of_here).
  f_equal. apply IH. intros x Hx. apply Hall. by apply list_elem_of_further.
Qed.

(** ** The position is the rank *)

Lemma matchesFid_withUser (st : Store) (f u s a : Z) :
  consistent st -> collection st !! (u, s) = Some a ->
  matchesFid f (withUser st (u, s, a)) = true <-> u = f.
Proof.
  intros [Hk Hc] Hrow. unfold matchesFid, withUser; simpl.
  destruct (Hc _ _ Hrow) as [[usr Husr] _]. simpl in Husr. rewrite Husr.
  rewrite (Hk _ _ Husr). apply Z.eqb_eq.
Qed.

Section Rank.

Variable orderByAmountDesc : list Collector -> list Collector.
Hypothesis orderBy_perm : forall l, orderByAmountDesc l ≡ₚ l.
Hypothesis orderBy_sorted :
  forall l, StronglySorted amount_desc (orderByAmountDesc l).

Local Abbreviation collectors := (collectorsOf orderByAmountDesc).

Lemma getCollectorsBySongId_eq (st : Store) (s : Z) :
  getCollectorsBySongId orderByAmountDesc s st = Ok (collectors st s, st).
Proof. reflexivity. Qed.

Lemma getUserCollectionWithPosition_eq (st : Store) (s f : Z) :
  getUserCollectionWithPosition orderByAmountDesc s f st
  = let position := findIndex (matchesFid f) (collectors st s) in
    Ok (mkCollectionWithPosition
          (if (position =? -1)%Z then None
           else collectors st s !! Z.to_nat position)
          (if (position =? -1)%Z then None else Some (position + 1)),
        st).
Proof. reflexivity. Qed.

Lemma elem_of_collectorsOf (st : Store) (s : Z) (c : Collector) :
  c ∈ collectors st s <->
  exists u a, collection st !! (u, s) = Some a /\ c = withUser st (u, s, a).
Proof.
  unfold collectorsOf. rewrite orderBy_perm, list_elem_of_fmap. split.
  - intros [[[u s'] a] [-> Hin]]. apply elem_of_songRows in Hin as [Hrow ->].
    eauto.
  - intros (u & a & Hrow & ->). exists (u, s, a). split; [reflexivity|].
    apply elem_of_songRows. auto.
Qed.

Lemma NoDup_collectorsOf (st : Store) (s : Z) : NoDup (collectors st s).
Proof.
  unfold collectorsOf. rewrite orderBy_perm.
  apply NoDup_fmap_2; [apply _ | apply NoDup_songRows].
Qed.

Lemma amounts_collectorsOf (st : Store) (s : Z) :
  (fun c => amount (row c)) <$> collectors st s ≡ₚ amountsOf st s.
Proof.
  unfold collectorsOf. rewrite orderBy_perm, amounts_withUser. reflexivity.
Qed.

(** Without a row for the user nobody matches. *)
Lemma findIndex_absent (st : Store) (s f : Z) :
  consistent st -> collection st !! (f, s) = None ->
  findIndex (matchesFid f) (collectors st s) = -1.
Proof.
  intros Hst Hrow. apply findIndex_from_none. intros c Hc.
  apply elem_of_collectorsOf in Hc as (u & a & Hua & ->).
  destruct (matchesFid f (withUser st (u, s, a))) eqn:E; [|reflexivity].
  apply (matchesFid_withUser st f u s a Hst Hua) in E. subst u. congruence.
Qed.

(** With a row, the ordered collectors split at it, and nobody before it
    matches. *)
Lemma collectorsOf_split (st : Store) (s f a : Z) :
  consistent st -> collection st !! (f, s) = Some a ->
  exists l1 l2,
    collectors st s = l1 ++ withUser st (f, s, a) :: l2
    /\ (forall y, y ∈ l1 -> matchesFid f y = false)
    /\ (forall y, y ∈ l1 -> a <= amount (row y))
    /\ (forall y, y ∈ l2 -> amount (row y) <= a)
    /\ (forall y, y ∈ l1 ->
        exists u' a', u' <> f /\ collection st !! (u', s) = Some a'
                      /\ amount (row y) = a').
Proof.
  intros Hst Hrow.
  assert (Hin : withUser st (f, s, a) ∈ collectors st s)
    by (apply elem_of_collectorsOf; eauto).
  destruct (list_elem_of_split _ _ Hin) as (l1 & l2 & Hsplit).
  exists l1, l2. split; [exact Hsplit|].
  pose proof (NoDup_collectorsOf st s) as Hnd. rewrite Hsplit in Hnd.
  apply NoDup_app in Hnd as (_ & Hdisj & _).
  pose proof (orderBy_sorted (withUser st <$> songRows st s)) as Hsorted.
  fold (collectors st s) in Hsorted. rewrite Hsplit in Hsorted.
  assert (Hother : forall y, y ∈ l1 ->
            exists u' a', u' <> f /\ collection st !! (u', s) = Some a'
                          /\ y = withUser st (u', s, a')).
  { intros y Hy.
    assert (Hy' : y ∈ collectors st s)
      by (rewrite Hsplit; apply elem_of_app; auto).
    apply elem_of_collectorsOf in Hy' as (u' & a' & Hua & ->).
    exists u', a'. split; [|auto].
    intros ->. assert (a' = a) by congruence. subst a'.
    apply (Hdisj _ Hy). apply list_elem_of_here. }
  repeat split.
  - intros y Hy. destruct (Hother y Hy) as (u' & a' & Hne & Hua & ->).
    destruct (matchesFid f (withUser st (u', s, a'))) eqn:E; [|reflexivity].
    apply (matchesFid_withUser st f u' s a' Hst Hua) in E. contradiction.
  - intros y Hy.
    apply (StronglySorted_app_1_elem_of amount_desc l1 _ y (withUser st (f, s, a)))
      in Hsorted; [exact Hsorted | exact Hy | apply list_elem_of_here].
  - intros y Hy.
    change (l1 ++ withUser st (f, s, a) :: l2)
      with (l1 ++ [withUser st (f, s, a)] ++ l2) in Hsorted.
    rewrite app_assoc in Hsorted.
    apply (StronglySorted_app_1_elem_of amount_desc _ l2 (withUser st (f, s, a)) y)
      in Hsorted; [exact Hsorted | | exact Hy].
    apply elem_of_app. right. apply list_elem_of_here.
  - intros y Hy. destruct (Hother y Hy) as (u' & a' & Hne & Hua & ->).
    exists u', a'. auto.
Qed.

(** C8.  In a store that keeps its references, the position computed for
    a user and a song is null exactly when the user holds no row for the
    song; otherwise it is the 1-based index of the user's row in the
    collectors ordered by descending amount: the row is found at that
    index, the position is above the number of collectors with a strictly
    larger amount and at most the number of collectors with an amount at
    least as large, and it is 1 when every other collector has a strictly
    smaller amount. *)
Theorem position_is_rank (st : Store) (s f : Z) :
  consistent st ->
  exists r,
    getUserCollectionWithPosition orderByAmountDesc s f st = Ok (r, st)
    /\ match collection st !! (f, s) with
       | None => position r = None /\ cwp_collection r = None
       | Some a =>
           exists p,
             position r = Some p
             /\ cwp_collection r = Some (withUser st (f, s, a))
             /\ collectors st s !! Z.to_nat (p - 1) = Some (withUser st (f, s, a))
             /\ Z.of_nat (strictlyAbove st s a) < p <= Z.of_nat (atOrAbove st s a)
             /\ ((forall u' a', u' <> f -> collection st !! (u', s) = Some a' -> a' < a)
                 -> p = 1)
       end.
Proof.
  intros Hst. rewrite getUserCollectionWithPosition_eq. simpl.
  eexists. split; [reflexivity|]. simpl.
  destruct (collection st !! (f, s)) as [a|] eqn:Hrow.
  - destruct (collectorsOf_split st s f a Hst Hrow)
      as (l1 & l2 & Hsplit & Hbefore & Hge & Hle & Hother).
    assert (Hme : matchesFid f (withUser st (f, s, a)) = true)
      by (apply (matchesFid_withUser st f f s a Hst Hrow); reflexivity).
    assert (Hidx : findIndex (matchesFid f) (collectors st s) = Z.of_nat (length l1)).
    { unfold findIndex. rewrite Hsplit.
      rewrite (findIndex_from_first _ _ _ _ _ Hbefore Hme). lia. }
    rewrite Hidx.
    replace (Z.of_nat (length l1) =? -1)%Z with false by (symmetry; apply Z.eqb_neq; lia).
    exists (Z.of_nat (length l1) + 1). rewrite Nat2Z.id.
    replace (Z.to_nat (Z.of_nat (length l1) + 1 - 1)) with (length l1) by lia.
    assert (Hat : collectors st s !! length l1 = Some (withUser st (f, s, a)))
      by (rewrite Hsplit; apply list_lookup_middle; reflexivity).
    repeat split; try exact Hat.
    + (* above the collectors with a strictly larger amount *)
      unfold strictlyAbove. rewrite <- (amounts_collectorsOf st s), Hsplit.
      rewrite fmap_app, fmap_cons, filter_app, length_app.
      rewrite filter_cons_False by (simpl; lia).
      rewrite (filter_nil_Forall (fun x => a < x) ((fun c => amount (row c)) <$> l2)).
      * pose proof (length_filter (fun x => a < x) ((fun c => amount (row c)) <$> l1)) as Hlen.
        rewrite length_fmap in Hlen. simpl. lia.
      * intros x Hx. apply list_elem_of_fmap in Hx as (y & -> & Hy).
        specialize (Hle y Hy). lia.
    + (* at most the collectors with an amount at least as large *)
      unfold atOrAbove. rewrite <- (amounts_collectorsOf st s), Hsplit.
      rewrite fmap_app, fmap_cons, filter_app, length_app.
      rewrite filter_cons_True by (simpl; lia).
      rewrite (filter_all_Forall (fun x => a <= x) ((fun c => amount (row c)) <$> l1)).
      * rewrite length_fmap. simpl. lia.
      * intros x Hx. apply list_elem_of_fmap in Hx as (y & -> & Hy).
        exact (Hge y Hy).
    + (* first when strictly the largest *)
      intros Hmax. destruct l1 as [|y l1]; [reflexivity|]. exfalso.
      destruct (Hother y (list_elem_of_here _ _)) as (u' & a' & Hne & Hua & Hamt).
      specialize (Hmax u' a' Hne Hua).
      specialize (Hge y (list_elem_of_here _ _)). lia.
  - rewrite (findIndex_absent st s f Hst Hrow). simpl. auto.
Qed.

End Rank.

(** The merge sort is an admissible ordering. *)
#[local] Instance amount_desc_trans : Transitive amount_desc.
Proof. intros x y z. unfold amount_desc. lia. Qed.

#[local] Instance amount_desc_total : Total amount_desc.
Proof. intros x y. unfold amount_desc. lia. Qed.

Lemma sortByAmountDesc_perm (l : list Collector) : sortByAmountDesc l ≡ₚ l.
Proof. apply merge_sort_Permutation. Qed.

Lemma sortByAmountDesc_sorted (l : list Collector) :
  StronglySorted amount_desc (sortByAmountDesc l).
Proof. apply StronglySorted_merge_sort; apply _. Qed.

Lemma sampleStore_consistent : consistent sampleStore.
Proof.
  split.
  - apply (bool_decide_unpack _). vm_compute. exact I.
  - apply (bool_decide_unpack _). vm_compute. exact I.
Defined.

Lemma position_is_rank_witness :
  consistent sampleStore
  /\ exists r,
      getUserCollectionWithPosition sortByAmountDesc 7 2 sampleStore
      = Ok (r, sampleStore)
      /\ match collection sampleStore !! (2, 7) with
         | None => position r = None /\ cwp_collection r = None
         | Some a =>
             exists p,
               position r = Some p
               /\ cwp_collection r = Some (withUser sampleStore (2, 7, a))
               /\ collectorsOf sortByAmountDesc sampleStore 7 !! Z.to_nat (p - 1)
                  = Some (withUser sampleStore (2, 7, a))
               /\ Z.of_nat (strictlyAbove sampleStore 7 a) < p
                  <= Z.of_nat (atOrAbove sampleStore 7 a)
               /\ ((forall u' a', u' <> 2 ->
                    collection sampleStore !! (u', 7) = Some a' -> a' < a)
                   -> p = 1)
         end.
Proof.
  split; [exact sampleStore_consistent|].
  apply (position_is_rank sortByAmountDesc sortByAmountDesc_perm
           sortByAmountDesc_sorted sampleStore 7 2 sampleStore_consistent).
Defined.

Example rank_of_largest :
  getUserCollectionWithPosition sortByAmountDesc 7 2 sampleStore
  = Ok (mkCollectionWithPosition
          (Some (withUser sampleStore (2, 7, 9))) (Some 1), sampleStore).
Proof. vm_compute. reflexivity. Qed.

Example rank_of_smallest :
  position <$> (match getUserCollectionWithPosition sortByAmountDesc 7 1 sampleStore with
                | Ok (r, _) => Some r | Throw _ => None end) = Some (Some 3).
Proof. vm_compute. reflexivity. Qed.

Example rank_of_stranger :
  position <$> (match getUserCollectionWithPosition sortByAmountDesc 7 4 sampleStore with
                | Ok (r, _) => Some r | Throw _ => None end) = Some None.
Proof. vm_compute. reflexivity. Qed.

Lemma createCollection_existence_checks_witness :
  createCollection sampleJsonParse (mkCollection 4 7 2) sampleStore
  = Throw "User with ID 4 does not exist"
  /\ createCollection sampleJsonParse (mkCollection 1 9 2) sampleStore
     = Throw "Song with ID 9 does not exist"
  /\ createCollection sampleJsonParse (mkCollection 1 7 2)
                      (mkStore ∅ ∅ (collection sampleStore))
     = Ok (mkCollection 1 7 5,
           mkStore ∅ ∅ (<[(1, 7) := 5]> (collection sampleStore))).
Proof.
  split; [|split].
  - apply (createCollection_existence_checks sampleJsonParse 4 7 2 sampleStore);
      reflexivity.
  - apply (createCollection_existence_checks sampleJsonParse 1 9 2 sampleStore);
      [reflexivity | eexists; reflexivity | reflexivity].
  - apply (proj2 (createCollection_existence_checks sampleJsonParse 1 7 2 sampleStore) 3).
    reflexivity.
Defined.

(** A first mint of a song whose stored [feat] is not JSON: the user and
    the song exist, and the upsert throws the parser's error and writes
    nothing; a repeat mint of another song of the same store goes
    through. *)
Example first_mint_of_unparsable_song :
  createCollection sampleJsonParse (mkCollection 1 9 2) unparsableFeatStore
  = Throw "Unexpected token in JSON"
  /\ is_Some (user unparsableFeatStore !! 1)
  /\ is_Some (song unparsableFeatStore !! 9)
  /\ createCollection sampleJsonParse (mkCollection 1 7 2) unparsableFeatStore
     = Ok (mkCollection 1 7 5, withCollection unparsableFeatStore 1 7 5).
Proof.
  split; [vm_compute; reflexivity|].
  split; [eexists; vm_compute; reflexivity|].
  split; [eexists; vm_compute; reflexivity|].
  apply (createCollection_repeat sampleJsonParse 1 7 2 3). reflexivity.
Qed.

End DbProps.

(* ===================================================================== *)
(** * Part IV: properties of the mint modal *)
(* ===================================================================== *)

Module MintProps.
Import Mint.

(** ** Numbers *)

Lemma BigInt_inject_Z (z : Z) : BigInt (inject_Z z) = Some z.
Proof.
  unfold BigInt. rewrite Qred_identity by (simpl; apply Z.gcd_1_r).
  reflexivity.
Qed.

Lemma BigInt_ceil (x : Q) : BigInt (Math_ceil x) = Some (Qceiling x).
Proof. apply BigInt_inject_Z. Qed.

Lemma requiredUsdc_eq (s : Snapshot) :
  requiredUsdc s = Some (Qceiling (usdcAmountNumber s)).
Proof. apply BigInt_ceil. Qed.

Lemma requiredAllowance_eq (s : Snapshot) :
  requiredAllowance s = Some (Qceiling (usdcAmountNumber s)).
Proof. apply BigInt_ceil. Qed.

Lemma requiredEthFor_eq (s : Snapshot) (amount : Z) :
  requiredEthFor s amount = Qceiling <$> ethAmountNumber s amount.
Proof.
  unfold requiredEthFor. destruct (ethAmountNumber s amount); [|reflexivity].
  apply BigInt_ceil.
Qed.

(** C1.  At a price of 1.0000005 USD the amount of one edition is
    1000000.5 minor units: the balance and allowance thresholds round it
    up to 1000001, while the two approvals hand the fraction to [BigInt],
    which throws, so that neither the approval nor the bundled call is
    put before the wallet. *)
Theorem approval_amount_not_rounded :
  let s := with_usdPrice (2000001 # 2000000) (with_mintQuantity 1 checkout) in
  (usdcAmountNumber s == 2000001 # 2)%Q
  /\ requiredUsdc s = Some 1000001
  /\ requiredAllowance s = Some 1000001
  /\ approveAmount s = None
  /\ handleApproveOnly s = []
  /\ forall rangeErrorMessage sent,
       List.filter is_submission
         (handleApproveAndMintWithSendCalls rangeErrorMessage s sent) = [].
Proof.
  simpl. repeat split; try (vm_compute; reflexivity).
  intros rangeErrorMessage sent.
  unfold handleApproveAndMintWithSendCalls, approveAndMintCatch.
  change (approveAmount _) with (@None Z). cbv iota.
  change (userAddress _) with (Some "0xbuyer"). cbv iota.
  destruct (includes sendCallsUnsupported _); [vm_compute; reflexivity|].
  destruct (includes userRejected _); reflexivity.
Qed.

(** ** The post-mint pipeline *)

Lemma executePostMintLogic_runs (s : Snapshot) (o : PipelineOutcome) (f : Z) :
  truthy_fid (userFid s) = Some f -> postMintExecuted s = false ->
  executePostMintLogic s o
  = [SetPostMintExecuted true; PromptToAddMiniApp] ++
    signUpUser f o ++
    fst (createCollection s f o) ++
    sendNotification s f o (snd (createCollection s f o)) ++
    [TrackEvent "mint" f (tokenId s) (mintQuantity s) (paymentMethod s)
                (usdPrice s * inject_Z (mintQuantity s))%Q].
Proof. intros Hf Hg. unfold executePostMintLogic. rewrite Hf, Hg. reflexivity. Qed.

Lemma executePostMintLogic_refused (s : Snapshot) (o : PipelineOutcome) :
  postMintExecuted s = true -> executePostMintLogic s o = [].
Proof.
  intros Hg. unfold executePostMintLogic. rewrite Hg.
  destruct (truthy_fid (userFid s)); reflexivity.
Qed.


Lemma snd_createCollection (s : Snapshot) (f : Z) (o : PipelineOutcome) :
  match snd (createCollection s f o) with
  | Some d => details_position d
  | None => None
  end = returnedPosition o.
Proof.
  unfold createCollection, returnedPosition.
  destruct (createCollectionResult o) as [[d|]|]; reflexivity.
Qed.

(** C9 (as amended).  When the pipeline runs, its five steps are issued
    in the order prompt, registration, upsert, notification, analytics,
    whatever the outcome of each; a failed registration, upsert or
    notification is reported by its own notice and a failed prompt by
    none; the notification carries the ordinal-suffixed position when a
    non-zero position came back from the upsert, and the fallback text
    when none did. *)
Theorem pipeline_steps_in_order (s : Snapshot) (o : PipelineOutcome) (f : Z) :
  truthy_fid (userFid s) = Some f -> postMintExecuted s = false ->
  List.filter is_step (executePostMintLogic s o)
  = [PromptToAddMiniApp;
     CreateUserMutation f;
     CreateCollectionMutation f (tokenId s) (mintQuantity s);
     SendNotificationMutation (notificationTitle s)
       (leaderboardText (returnedPosition o)) 0 [f];
     TrackEvent "mint" f (tokenId s) (mintQuantity s) (paymentMethod s)
                (usdPrice s * inject_Z (mintQuantity s))%Q]
  /\ List.filter is_toast (executePostMintLogic s o)
     = (if createUserResolves o then [] else [Toast "Error signing up user"]) ++
       (if is_some (createCollectionResult o) then []
        else [Toast "Error creating collection"]) ++
       (if sendNotificationResolves o then []
        else [Toast "Error sending notification"])
  /\ (forall p, returnedPosition o = Some p -> p <> 0 ->
      leaderboardText (returnedPosition o)
      = "You're in " +:+ pretty p +:+ ordinalSuffix p +:+ " place on the leaderboard")
  /\ (returnedPosition o = None ->
      leaderboardText (returnedPosition o) = "You're now on the leaderboard").
Proof.
  intros Hf Hg. rewrite (executePostMintLogic_runs s o f Hf Hg).
  unfold sendNotification. rewrite snd_createCollection.
  unfold signUpUser, createCollection.
  repeat split.
  - destruct (createUserResolves o), (createCollectionResult o),
      (sendNotificationResolves o); reflexivity.
  - destruct (createUserResolves o), (createCollectionResult o),
      (sendNotificationResolves o); reflexivity.
  - intros p -> Hp. unfold leaderboardText.
    destruct (Z.eqb_spec p 0); [contradiction | reflexivity].
  - intros ->. reflexivity.
Qed.

Lemma pipeline_steps_in_order_witness :
  List.filter is_step (executePostMintLogic checkout allResolve)
  = [PromptToAddMiniApp;
     CreateUserMutation 42;
     CreateCollectionMutation 42 7 2;
     SendNotificationMutation "You minted 2 editions of Acid Test!"
       "You're in 1st place on the leaderboard" 0 [42];
     TrackEvent "mint" 42 7 2 USDC ((4 # 1) * inject_Z 2)%Q]
  /\ List.filter is_toast (executePostMintLogic checkout allResolve) = [].
Proof.
  destruct (pipeline_steps_in_order checkout allResolve 42) as (H1 & H2 & _);
    [reflexivity | reflexivity |].
  split; [exact H1 | exact H2].
Defined.

(** C9 (as stated) fails: with every step but the prompt succeeding, the
    prompt's failure is reported by no notice. *)
Lemma prompt_failure_unreported :
  ~ (forall s o,
       truthy_fid (userFid s) <> None -> postMintExecuted s = false ->
       someStepFails o = true ->
       existsb is_toast (executePostMintLogic s o) = true).
Proof.
  intros H.
  pose proof (H checkout
                (mkOutcome false true (Some (Some (mkDetails (Some 1) (Some 2)))) true)
                ltac:(discriminate) eq_refl eq_refl) as E.
  vm_compute in E. discriminate E.
Qed.

(** X25.  The suffix is the English one: "th" in the teens of every
    hundred, otherwise after the last digit. *)
Lemma ordinalSuffix_english (n : Z) :
  0 <= n ->
  ordinalSuffix n
  = if ((n / 10) mod 10 =? 1)%Z then "th"
    else match n mod 10 with
         | 1 => "st" | 2 => "nd" | 3 => "rd" | _ => "th"
         end.
Proof.
  intros Hn. unfold ordinalSuffix.
  rewrite !Z.rem_mod_nonneg by lia.
  assert (H100 : n mod 100 = 10 * ((n / 10) mod 10) + n mod 10).
  { rewrite (Z.mod_eq n 100), (Z.mod_eq (n / 10) 10), (Z.mod_eq n 10) by lia.
    rewrite Z.div_div by lia. change (10 * 10) with 100. lia. }
  pose proof (Z.mod_pos_bound n 10 ltac:(lia)) as Hd.
  pose proof (Z.mod_pos_bound (n / 10) 10 ltac:(lia)) as Ht.
  rewrite H100.
  destruct (Z.eqb_spec ((n / 10) mod 10) 1) as [E|E].
  - rewrite E.
    destruct (Z.eqb_spec (n mod 10) 1) as [->|]; simpl; [reflexivity|].
    destruct (Z.eqb_spec (n mod 10) 2) as [->|]; simpl; [reflexivity|].
    destruct (Z.eqb_spec (n mod 10) 3) as [->|]; simpl; reflexivity.
  - destruct (Z.eqb_spec (n mod 10) 1) as [E1|E1].
    { rewrite E1. destruct (Z.eqb_spec (10 * ((n / 10) mod 10) + 1) 11); [lia|reflexivity]. }
    destruct (Z.eqb_spec (n mod 10) 2) as [E2|E2].
    { rewrite E2. destruct (Z.eqb_spec (10 * ((n / 10) mod 10) + 2) 12); [lia|reflexivity]. }
    destruct (Z.eqb_spec (n mod 10) 3) as [E3|E3].
    { rewrite E3. destruct (Z.eqb_spec (10 * ((n / 10) mod 10) + 3) 13); [lia|reflexivity]. }
    simpl. destruct (n mod 10) as [|[ [ | |] | [ | |] | ]|]; try reflexivity; lia.
Qed.

(** ** Errors and notices *)

Lemma approveAndMint_rejected (rangeErrorMessage : Q -> string)
    (s : Snapshot) (a : string) (n : Z) (e : Thrown) :
  userAddress s = Some a -> approveAmount s = Some n ->
  handleApproveAndMintWithSendCalls rangeErrorMessage s (SendCallsRejects e)
  = [SetPostMintExecuted false; SetIsSendCallsPending true;
     SendCalls [(USDC_CONTRACT_ADDRESS, approve CONTRACT_ADDRESS n);
                (CONTRACT_ADDRESS, mint a (tokenId s) (mintQuantity s) false)]]
    ++ approveAndMintCatch s e.
Proof.
  intros Ha Hn. unfold handleApproveAndMintWithSendCalls. rewrite Ha, Hn.
  reflexivity.
Qed.

Lemma handleApproveOnly_eq (s : Snapshot) (a : string) (n : Z) :
  userAddress s = Some a -> approveAmount s = Some n ->
  handleApproveOnly s
  = [WriteContractAllowance USDC_CONTRACT_ADDRESS (approve CONTRACT_ADDRESS n)].
Proof. intros Ha Hn. unfold handleApproveOnly. rewrite Ha, Hn. reflexivity. Qed.

(** C5 (as amended).  A wallet error of the mint or of the approval is
    shown, with its message, exactly when the message does not contain
    the rejection text.  An [Error] thrown by the bundled submission is
    shown exactly when its message contains neither the text of the
    unsupported capability nor the rejection text; a thrown value that is
    not an [Error] is never shown.  No other notice is raised. *)
Theorem notice_unless_rejected (rangeErrorMessage : Q -> string)
    (s : Snapshot) (message : string) :
  (mintError s = Some message ->
   List.filter is_toast (mintErrorEffect s)
   = if includes userRejected message then [] else [Toast message])
  /\ (allowanceError s = Some message ->
      List.filter is_toast (allowanceErrorEffect s)
      = if includes userRejected message then [] else [Toast message])
  /\ (forall a n, userAddress s = Some a -> approveAmount s = Some n ->
      List.filter is_toast
        (handleApproveAndMintWithSendCalls rangeErrorMessage s
           (SendCallsRejects (ErrorObject message)))
      = (if includes sendCallsUnsupported message || includes userRejected message
         then [] else [Toast message])
      /\ List.filter is_toast
           (handleApproveAndMintWithSendCalls rangeErrorMessage s
              (SendCallsRejects OtherValue)) = []).
Proof.
  split; [|split].
  - intros Hm. unfold mintErrorEffect. rewrite Hm.
    destruct (includes userRejected message); reflexivity.
  - intros Hm. unfold allowanceErrorEffect. rewrite Hm.
    destruct (includes userRejected message); reflexivity.
  - intros a n Ha Hn. rewrite !(approveAndMint_rejected _ _ _ _ _ Ha Hn).
    split; [|reflexivity].
    unfold approveAndMintCatch. rewrite (handleApproveOnly_eq _ _ _ Ha Hn).
    destruct (includes sendCallsUnsupported message); [reflexivity|].
    destruct (includes userRejected message); reflexivity.
Qed.

Lemma notice_unless_rejected_witness :
  List.filter is_toast
    (mintErrorEffect (with_mintError (Some "execution reverted") checkout))
  = [Toast "execution reverted"]
  /\ List.filter is_toast
       (allowanceErrorEffect
          (with_allowanceError (Some "The user rejected the request.") checkout))
     = []
  /\ List.filter is_toast
       (handleApproveAndMintWithSendCalls engineMessage checkout
          (SendCallsRejects (ErrorObject "insufficient funds for gas")))
     = [Toast "insufficient funds for gas"].
Proof.
  split; [|split].
  - apply (proj1 (notice_unless_rejected engineMessage
                    (with_mintError (Some "execution reverted") checkout)
                    "execution reverted")).
    reflexivity.
  - apply (proj1 (proj2 (notice_unless_rejected engineMessage
                    (with_allowanceError (Some "The user rejected the request.") checkout)
                    "The user rejected the request."))).
    reflexivity.
  - apply (proj2 (proj2 (notice_unless_rejected engineMessage checkout
                    "insufficient funds for gas")) "0xbuyer" 8000000);
      reflexivity.
Defined.

(** C5 (as stated) fails: the error of a wallet without the bundled-call
    capability is not a rejection by the user, and no notice shows it. *)
Lemma unsupported_capability_not_shown :
  ~ (forall (rangeErrorMessage : Q -> string) s message,
       userAddress s <> None -> approveAmount s <> None ->
       (existsb is_toast
          (handleApproveAndMintWithSendCalls rangeErrorMessage s
             (SendCallsRejects (ErrorObject message))) = true
        <-> includes userRejected message = false)).
Proof.
  intros H.
  pose proof (H engineMessage checkout sendCallsUnsupported
                ltac:(discriminate) ltac:(discriminate)) as [_ E].
  vm_compute in E. specialize (E eq_refl). discriminate E.
Qed.

(** ** The fallback of the bundled submission *)

(** C3.  When the bundled submission is rejected with the message of an
    unsupported capability, the handler clears the in-flight flag and
    writes the single approval, without a notice; and in the render where
    the receipt of that approval turns to success, the effect refetches
    the allowance and writes the mint for the selected quantity. *)
Theorem fallback_to_approval_then_mint (rangeErrorMessage : Q -> string)
    (s : Snapshot) (a : string) (n : Z) (message : string) :
  userAddress s = Some a -> approveAmount s = Some n ->
  includes sendCallsUnsupported message = true ->
  handleApproveAndMintWithSendCalls rangeErrorMessage s
    (SendCallsRejects (ErrorObject message))
  = [SetPostMintExecuted false; SetIsSendCallsPending true;
     SendCalls [(USDC_CONTRACT_ADDRESS, approve CONTRACT_ADDRESS n);
                (CONTRACT_ADDRESS, mint a (tokenId s) (mintQuantity s) false)];
     SetIsSendCallsPending false;
     WriteContractAllowance USDC_CONTRACT_ADDRESS (approve CONTRACT_ADDRESS n)]
  /\ List.filter is_toast
       (handleApproveAndMintWithSendCalls rangeErrorMessage s
          (SendCallsRejects (ErrorObject message))) = []
  /\ forall (m : Machine) (a' : string) (v : Z),
       allowanceTxResult (current m) <> ReceiptSuccess ->
       userAddress (current m) = Some a' ->
       mintValue (current m) (mintQuantity (current m)) = Some v ->
       snd (step rangeErrorMessage m (AllowanceReceiptChanges ReceiptSuccess))
       = [RefetchAllowance; SetPostMintExecuted false;
          WriteContractMint CONTRACT_ADDRESS
            (mint a' (tokenId (current m)) (mintQuantity (current m)) false) v].
Proof.
  intros Ha Hn Hmsg.
  assert (Htrace :
    handleApproveAndMintWithSendCalls rangeErrorMessage s
      (SendCallsRejects (ErrorObject message))
    = [SetPostMintExecuted false; SetIsSendCallsPending true;
       SendCalls [(USDC_CONTRACT_ADDRESS, approve CONTRACT_ADDRESS n);
                  (CONTRACT_ADDRESS, mint a (tokenId s) (mintQuantity s) false)];
       SetIsSendCallsPending false;
       WriteContractAllowance USDC_CONTRACT_ADDRESS (approve CONTRACT_ADDRESS n)]).
  { rewrite (approveAndMint_rejected _ _ _ _ _ Ha Hn).
    unfold approveAndMintCatch. rewrite Hmsg, (handleApproveOnly_eq _ _ _ Ha Hn).
    reflexivity. }
  split; [exact Htrace|]. split; [rewrite Htrace; reflexivity|].
  intros m a' v Hnot Ha' Hv. unfold step.
  destruct (allowanceTxResult (current m)) eqn:Hr; try contradiction; simpl;
    unfold allowanceTxResultEffect, handleMint; simpl;
    change (userAddress (with_allowanceTxResult ReceiptSuccess (current m)))
      with (userAddress (current m));
    change (mintValue (with_allowanceTxResult ReceiptSuccess (current m)))
      with (mintValue (current m));
    rewrite Ha'; simpl; rewrite Hv; reflexivity.
Qed.

Lemma fallback_to_approval_then_mint_witness :
  handleApproveAndMintWithSendCalls engineMessage checkout
    (SendCallsRejects (ErrorObject sendCallsUnsupported))
  = [SetPostMintExecuted false; SetIsSendCallsPending true;
     SendCalls [(USDC_CONTRACT_ADDRESS, approve CONTRACT_ADDRESS 8000000);
                (CONTRACT_ADDRESS, mint "0xbuyer" 7 2 false)];
     SetIsSendCallsPending false;
     WriteContractAllowance USDC_CONTRACT_ADDRESS (approve CONTRACT_ADDRESS 8000000)]
  /\ snd (step engineMessage (mkMachine checkout None false)
               (AllowanceReceiptChanges ReceiptSuccess))
     = [RefetchAllowance; SetPostMintExecuted false;
        WriteContractMint CONTRACT_ADDRESS (mint "0xbuyer" 7 2 false) 0].
Proof.
  destruct (fallback_to_approval_then_mint engineMessage checkout "0xbuyer"
              8000000 sendCallsUnsupported eq_refl eq_refl eq_refl) as (H1 & _ & H2).
  split; [exact H1|].
  apply (H2 (mkMachine checkout None false) "0xbuyer" 0);
    [discriminate | reflexivity | reflexivity].
Defined.

(** ** Affordability and the mint action *)

(** X26.  With a balance below the required total the action is
    disabled and labelled as such, and a click on it runs no handler. *)
Lemma insufficient_balance_disables (rangeErrorMessage : Q -> string)
    (s : Snapshot) (required balance : Z) (sent : SendCallsOutcome) :
  match paymentMethod s with
  | ETH => requiredEth s = Some required /\ balanceData s = Some balance
  | USDC => requiredUsdc s = Some required /\ usdcBalance s = Some balance
  end ->
  balance < required ->
  mintButtonDisabled s = Some true
  /\ mintButtonLabel s
     = Some (match paymentMethod s with
             | ETH => "INSUFFICIENT ETH BALANCE"
             | USDC => "INSUFFICIENT USDC BALANCE"
             end)
  /\ clickMintButton rangeErrorMessage s sent = [].
Proof.
  intros Hreq Hlt. unfold clickMintButton, mintButtonDisabled, mintButtonLabel.
  destruct (paymentMethod s); destruct Hreq as [Hr Hb].
  - assert (He : hasEnoughEthBalance s = Some false).
    { unfold hasEnoughEthBalance. rewrite Hb, Hr.
      destruct (userAddress s); [|reflexivity].
      f_equal. apply Z.leb_gt. exact Hlt. }
    rewrite He. simpl. destruct (isOpen s && is_Initial (mintState s)); auto.
  - assert (He : hasEnoughUsdcBalance s = Some false).
    { unfold hasEnoughUsdcBalance. rewrite Hb, Hr.
      destruct (negb (truthy_bigint (Some balance)) || negb (is_some (userAddress s)));
        [reflexivity|].
      f_equal. apply Z.leb_gt. exact Hlt. }
    rewrite He. simpl. destruct (isOpen s && is_Initial (mintState s)); auto.
Qed.

(** C6.  A buyer holding 10 USDC selects 5 editions at 4 USD while the
    approval is in flight: the action is disabled and labelled
    insufficient, and a click submits nothing; yet when the approval's
    receipt turns to success the effect writes the mint of the 5
    editions. *)
Theorem auto_mint_ignores_balance :
  let s := with_mintQuantity 5 approving in
  requiredUsdc s = Some 20000000
  /\ usdcBalance s = Some 10000000
  /\ mintButtonDisabled s = Some true
  /\ mintButtonLabel s = Some "INSUFFICIENT USDC BALANCE"
  /\ (forall sent, clickMintButton engineMessage s sent = [])
  /\ snd (step engineMessage (mkMachine s None false)
               (AllowanceReceiptChanges ReceiptSuccess))
     = [RefetchAllowance; SetPostMintExecuted false;
        WriteContractMint CONTRACT_ADDRESS (mint "0xbuyer" 7 5 false) 0].
Proof.
  simpl. repeat split; vm_compute; reflexivity.
Qed.

(** ** The poll of the bundled calls *)

















Example clock_of_a_buyer_without_fid :
  pollClock Checkout.withoutFid "0xbatch" [(CallsSuccess, allResolve)] 0
    (handleApproveAndMintWithSendCalls engineMessage Checkout.withoutFid
       (SendCallsResolves "0xbatch"))
  = [(0, SetPostMintExecuted false);
     (0, SetIsSendCallsPending true);
     (0, SendCalls [(USDC_CONTRACT_ADDRESS, approve CONTRACT_ADDRESS 8000000);
                    (CONTRACT_ADDRESS, mint "0xbuyer" 7 2 false)]);
     (0, SetSendCallsId "0xbatch");
     (0, SetTimeout CheckCallsStatus 2000);
     (2000, GetCallsStatus "0xbatch");
     (2000, SetIsSendCallsPending false);
     (2000, RefetchAllowance);
     (2000, SetMintState Success)].
Proof. vm_compute. reflexivity. Qed.

(** ** The guard of the post-mint pipeline *)


Lemma applyTrace_app (t1 t2 : Trace) (s : Snapshot) :
  applyTrace (t1 ++ t2) s = applyTrace t2 (applyTrace t1 s).
Proof. apply fold_left_app. Qed.




Lemma timers_pipeline (s : Snapshot) (o : PipelineOutcome) :
  existsb is_pollTimer (executePostMintLogic s o) = false.
Proof.
  unfold executePostMintLogic.
  destruct (truthy_fid (userFid s)); [|reflexivity].
  destruct (postMintExecuted s); [reflexivity|].
  unfold signUpUser, createCollection, sendNotification.
  destruct (createUserResolves o), (createCollectionResult o),
    (sendNotificationResolves o); reflexivity.
Qed.





Section MachineFacts.

Variable rangeErrorMessage : Q -> string.

Local Abbreviation step := (Mint.step rangeErrorMessage).
Local Abbreviation run := (Mint.run rangeErrorMessage).











End MachineFacts.


(** The success signal firing three times starts the pipeline once. *)
Example success_signal_thrice :
  startsFrom from_receipt
    (run engineMessage (mkMachine checkout None false)
         [MintStatusChanges WritePending;
          MintReceiptEffect ReceiptSuccess allResolve;
          MintReceiptEffect ReceiptSuccess allResolve;
          MintReceiptEffect ReceiptSuccess allResolve]) = 1%nat.
Proof. vm_compute. reflexivity. Qed.

End MintProps.

(* ===================================================================== *)
(** * Part V: further properties of the persistence gateway *)
(* ===================================================================== *)

Module GatewayProps.
Import Db Gateway DbProps.

(** ** Users *)

(** X2.  [createUser] returns the user it stores and [getUser] then finds
    it under its fid, every other fid reading as before; it throws
    exactly when the fid is taken. *)
Theorem createUser_then_getUser (u : DbUser) (st : Store) :
  match createUser u st with
  | Ok (r, st') =>
      user st !! fid u = None
      /\ r = u
      /\ getUser (fid u) st' = Ok (Some u, st')
      /\ (forall f, f <> fid u -> getUser f st' = Ok (user st !! f, st'))
      /\ song st' = song st /\ collection st' = collection st
  | Throw _ => is_Some (user st !! fid u)
  end.
Proof.
  unfold createUser, user_create, getUser, user_findUnique.
  destruct (user st !! fid u) as [w|] eqn:Hu; [eauto|]. simpl.
  repeat split.
  - rewrite lookup_insert_eq. reflexivity.
  - intros f Hf. rewrite lookup_insert_ne by congruence. reflexivity.
Qed.

Lemma user_update_eq (f : Z) (details : option string) (st : Store) (u : DbUser) :
  user st !! f = Some u ->
  user_update f details st
  = Ok (mkUser (fid u) details,
        mkStore (<[f := mkUser (fid u) details]> (user st)) (song st) (collection st)).
Proof. intros Hu. unfold user_update. rewrite Hu. reflexivity. Qed.

Lemma consistent_user_update (f : Z) (details : option string)
    (st st' : Store) (r : DbUser) :
  consistent st -> user_update f details st = Ok (r, st') -> consistent st'.
Proof.
  intros [Hk Hc]. unfold user_update.
  destruct (user st !! f) as [u|] eqn:Hu; [|discriminate].
  intros [= _ <-]. split.
  - unfold keyedByFid; simpl. apply map_Forall_insert_2; [|exact Hk].
    simpl. exact (Hk _ _ Hu).
  - unfold collectorsRegistered; simpl.
    intros k a Hka. destruct (Hc k a Hka) as [Hus Hso]. split; [|exact Hso].
    destruct (decide (f = fst k)) as [->|Hne].
    + rewrite lookup_insert_eq. eauto.
    + rewrite lookup_insert_ne by exact Hne. exact Hus.
Qed.

Lemma consistent_stored {A} (m : M A) (st : Store) :
  (forall r st', m st = Ok (r, st') -> consistent st') ->
  consistent st -> consistent (stored m st).
Proof.
  intros Hm Hst. unfold stored. destruct (m st) as [[r st']|e] eqn:E; eauto.
Qed.

(** X1.  Whatever writes are attempted, and whichever of them throw, a
    store that keeps its references keeps them: users stay filed under
    their fid and every collection row refers to a stored user and a
    stored song. *)
Theorem writes_keep_consistency
    (JSON_stringify : FrameNotificationDetails -> string)
    {Json : Type} (JSON_parse_any : string -> Result Json)
    (ws : list Write) (st : Store) :
  consistent st -> consistent (applyWrites JSON_stringify JSON_parse_any ws st).
Proof.
  revert st. induction ws as [|w ws IH]; intros st Hst; [exact Hst|].
  apply IH. destruct w; simpl; apply consistent_stored; try exact Hst.
  - intros r st'. apply consistent_createUser, Hst.
  - intros r st'. apply consistent_createSong, Hst.
  - intros r st'. apply (consistent_createCollection JSON_parse_any), Hst.
  - intros r st'. apply consistent_user_update, Hst.
  - intros r st'. apply consistent_user_update, Hst.
Qed.

Lemma writes_keep_consistency_witness :
  consistent emptyStore
  /\ consistent
       (applyWrites sampleStringify sampleJsonParse
          [WriteCollection (mkCollection 1 7 3);
           WriteUser (mkUser 1 None);
           WriteSong (mkSong 7 "Acid Test" None);
           WriteCollection (mkCollection 1 7 3);
           WriteCollection (mkCollection 1 7 2);
           WriteDetails 1 sampleDetails;
           ClearDetails 2]
          emptyStore).
Proof.
  split; [exact consistent_empty|].
  apply (writes_keep_consistency sampleStringify sampleJsonParse _ emptyStore
           consistent_empty).
Defined.

(** ** Notification details *)

Lemma NoDup_singleton_eq {A} (l : list A) (x : A) :
  NoDup l -> (forall y, y ∈ l <-> y = x) -> l = [x].
Proof.
  intros Hnd Hl. destruct l as [|a l].
  - exfalso. apply (not_elem_of_nil x), Hl. reflexivity.
  - assert (a = x) by (apply Hl, list_elem_of_here). subst a.
    destruct l as [|b l]; [reflexivity|]. exfalso.
    assert (b = x) by (apply Hl, list_elem_of_further, list_elem_of_here).
    subst b. apply NoDup_cons in Hnd as [Hnot _].
    apply Hnot, list_elem_of_here.
Qed.

Lemma NoDup_users (st : Store) :
  keyedByFid st -> NoDup (snd <$> map_to_list (user st)).
Proof.
  intros Hk. apply NoDup_fmap_2_strong; [|apply NoDup_map_to_list].
  intros [k1 u1] [k2 u2] H1 H2 Heq. simpl in Heq. subst u2.
  apply elem_of_map_to_list in H1, H2.
  rewrite <- (Hk _ _ H1), <- (Hk _ _ H2). reflexivity.
Qed.

Lemma elem_of_users (st : Store) (u : DbUser) :
  keyedByFid st -> u ∈ snd <$> map_to_list (user st) <-> user st !! fid u = Some u.
Proof.
  intros Hk. rewrite list_elem_of_fmap. split.
  - intros [[k w] [-> Hin]]. apply elem_of_map_to_list in Hin. simpl.
    rewrite (Hk _ _ Hin). exact Hin.
  - intros Hu. exists (fid u, u). split; [reflexivity|].
    apply elem_of_map_to_list. exact Hu.
Qed.

(** The users selected for one fid: the user filed under it, if any. *)
Lemma user_findMany_one (st : Store) (f : Z) :
  keyedByFid st ->
  user_findMany_in [f] st
  = Ok (match user st !! f with Some u => [u] | None => [] end, st).
Proof.
  intros Hk. unfold user_findMany_in. f_equal. f_equal.
  destruct (user st !! f) as [u|] eqn:Hu.
  - apply NoDup_singleton_eq; [apply NoDup_filter, NoDup_users, Hk|].
    intros w. rewrite list_elem_of_filter, (elem_of_users st w Hk),
      list_elem_of_singleton.
    split.
    + intros [Hf Hw]. rewrite Hf in Hw. congruence.
    + intros ->. rewrite (Hk _ _ Hu). auto.
  - apply filter_nil_Forall. intros w Hw Hf.
    apply (elem_of_users st w Hk) in Hw.
    apply list_elem_of_singleton in Hf. rewrite Hf in Hw. congruence.
Qed.

Section JsonFacts.

Variable JSON_stringify : FrameNotificationDetails -> string.
Variable JSON_parse : string -> option FrameNotificationDetails.

(** X3.  For details that [JSON.parse] reads back from their
    [JSON.stringify] text: once set for a stored user, a fetch for that
    user's fid returns exactly these details with the fid; once deleted,
    the same fetch returns nothing. *)
Theorem details_round_trip (f : Z) (d : FrameNotificationDetails) (st : Store) :
  JSON_parse (JSON_stringify d) = Some d ->
  JSON_stringify d <> "" ->
  keyedByFid st -> is_Some (user st !! f) ->
  exists st1 st2,
    setUserNotificationDetails JSON_stringify f d st
    = Ok (mkUser f (Some (JSON_stringify d)), st1)
    /\ getUsersNotificationDetails JSON_parse [f] st1
       = Ok ([mkUserDetails f (url d) (token d)], st1)
    /\ deleteUserNotificationDetails f st1 = Ok (mkUser f None, st2)
    /\ getUsersNotificationDetails JSON_parse [f] st2 = Ok ([], st2).
Proof.
  intros Hparse Htext Hk [u Hu].
  assert (Hfid : fid u = f) by exact (Hk _ _ Hu).
  pose (st1 := mkStore (<[f := mkUser f (Some (JSON_stringify d))]> (user st))
                       (song st) (collection st)).
  pose (st2 := mkStore (<[f := mkUser f None]> (user st1)) (song st) (collection st)).
  assert (Hk1 : keyedByFid st1).
  { unfold keyedByFid, st1; simpl. apply map_Forall_insert_2; [reflexivity|exact Hk]. }
  assert (Hk2 : keyedByFid st2).
  { unfold keyedByFid, st2; simpl. apply map_Forall_insert_2; [reflexivity|exact Hk1]. }
  exists st1, st2. repeat split.
  - unfold setUserNotificationDetails. rewrite (user_update_eq _ _ _ _ Hu), Hfid.
    reflexivity.
  - unfold getUsersNotificationDetails, bind.
    rewrite (user_findMany_one st1 f Hk1). unfold st1 at 1; simpl.
    rewrite lookup_insert_eq. simpl. unfold userDetails; simpl.
    destruct (String.eqb_spec (JSON_stringify d) ""); [contradiction|].
    rewrite Hparse. reflexivity.
  - unfold deleteUserNotificationDetails, user_update. unfold st1 at 1; simpl.
    rewrite lookup_insert_eq. reflexivity.
  - unfold getUsersNotificationDetails, bind.
    rewrite (user_findMany_one st2 f Hk2). unfold st2 at 1; simpl.
    rewrite lookup_insert_eq. reflexivity.
Qed.

(** X4.  For a fid without a user the two updates throw, and the fetch
    returns the empty list rather than an error. *)
Theorem details_of_absent_user (f : Z) (d : FrameNotificationDetails) (st : Store) :
  keyedByFid st -> user st !! f = None ->
  (exists e, setUserNotificationDetails JSON_stringify f d st = Throw e)
  /\ (exists e, deleteUserNotificationDetails f st = Throw e)
  /\ getUsersNotificationDetails JSON_parse [f] st = Ok ([], st).
Proof.
  intros Hk Hu. repeat split.
  - unfold setUserNotificationDetails, user_update. rewrite Hu. eauto.
  - unfold deleteUserNotificationDetails, user_update. rewrite Hu. eauto.
  - unfold getUsersNotificationDetails, bind.
    rewrite (user_findMany_one st f Hk), Hu. reflexivity.
Qed.

Lemma mapThrowing_throws {A B} (g : A -> Result B) (l : list A) (x : A) (e : string) :
  x ∈ l -> (forall y e', g y = Throw e' -> e' = e) -> g x = Throw e ->
  mapThrowing g l = Throw e.
Proof.
  intros Hin Hsame Hx. induction l as [|a l IH]; [by apply not_elem_of_nil in Hin|].
  simpl. destruct (g a) as [b|e'] eqn:Ha.
  - apply elem_of_cons in Hin as [->|Hin]; [congruence|].
    rewrite (IH Hin). reflexivity.
  - rewrite (Hsame _ _ Ha). reflexivity.
Qed.

(** X5.  One selected user whose stored details are not JSON makes the
    whole fetch throw, whatever the details of the others. *)
Theorem malformed_details_fail_the_fetch
    (fids : list Z) (f : Z) (u : DbUser) (text : string) (st : Store) :
  f ∈ fids -> user st !! f = Some u -> fid u = f ->
  notificationDetails u = Some text -> text <> "" ->
  JSON_parse text = None ->
  exists e, getUsersNotificationDetails JSON_parse fids st = Throw e.
Proof.
  intros Hf Hu Hfid Hd Hne Hparse. exists "SyntaxError".
  unfold getUsersNotificationDetails, bind, user_findMany_in.
  rewrite (mapThrowing_throws (userDetails JSON_parse) _ u "SyntaxError");
    [reflexivity | | |].
  - apply list_elem_of_filter. split; [rewrite Hfid; exact Hf|].
    apply list_elem_of_fmap. exists (f, u). split; [reflexivity|].
    apply elem_of_map_to_list. exact Hu.
  - intros y e'. unfold userDetails.
    destruct (notificationDetails y) as [s|]; [|discriminate].
    destruct (String.eqb s ""); [discriminate|].
    destruct (JSON_parse s); [discriminate|]. intros [= <-]. reflexivity.
  - unfold userDetails. rewrite Hd.
    destruct (String.eqb_spec text ""); [contradiction|].
    rewrite Hparse. reflexivity.
Qed.

End JsonFacts.

Lemma details_round_trip_witness :
  exists st1 st2,
    setUserNotificationDetails sampleStringify 1 sampleDetails sampleStore
    = Ok (mkUser 1 (Some sampleJson), st1)
    /\ getUsersNotificationDetails sampleParse [1] st1
       = Ok ([mkUserDetails 1 "https://api.example/notify" "secret"], st1)
    /\ deleteUserNotificationDetails 1 st1 = Ok (mkUser 1 None, st2)
    /\ getUsersNotificationDetails sampleParse [1] st2 = Ok ([], st2).
Proof.
  apply (details_round_trip sampleStringify sampleParse 1 sampleDetails sampleStore).
  - reflexivity.
  - discriminate.
  - exact (proj1 sampleStore_consistent).
  - eexists. reflexivity.
Defined.

Lemma details_of_absent_user_witness :
  (exists e, setUserNotificationDetails sampleStringify 9 sampleDetails sampleStore
             = Throw e)
  /\ (exists e, deleteUserNotificationDetails 9 sampleStore = Throw e)
  /\ getUsersNotificationDetails sampleParse [9] sampleStore = Ok ([], sampleStore).
Proof.
  apply (details_of_absent_user sampleStringify sampleParse 9 sampleDetails sampleStore).
  - exact (proj1 sampleStore_consistent).
  - reflexivity.
Defined.

Lemma malformed_details_fail_the_fetch_witness :
  exists e, getUsersNotificationDetails sampleParse [1; 2; 3] brokenStore = Throw e.
Proof.
  apply (malformed_details_fail_the_fetch sampleParse [1; 2; 3] 2
           (mkUser 2 (Some "not json")) "not json" brokenStore).
  - apply list_elem_of_further, list_elem_of_here.
  - reflexivity.
  - reflexivity.
  - reflexivity.
  - discriminate.
  - reflexivity.
Defined.

(** ** The global state *)

(** X6.  [getState] always leaves a table with a first row and returns
    that row; on an empty table the row it creates is in prelaunch; a
    second [getState] returns the same row and changes nothing; and the
    table grows by one row from empty and not at all otherwise. *)
Theorem getState_initialises_once (t : StateTable) :
  state_findFirst (snd (getState t)) = Some (fst (getState t))
  /\ (t = [] -> isPrelaunch (fst (getState t)) = true)
  /\ getState (snd (getState t)) = getState t
  /\ length (snd (getState t)) = Nat.max 1 (length t).
Proof.
  destruct t as [|row t]; simpl; repeat split; try reflexivity.
  intros [=].
Qed.

(** X7.  [updateState b] returns a row carrying [b], and the [getState]
    that follows returns a row carrying [b] and leaves the table as it
    is; the table grows by one row from empty and not at all otherwise. *)
Theorem updateState_then_getState (b : bool) (t : StateTable) :
  isPrelaunch (fst (updateState b t)) = b
  /\ isPrelaunch (fst (getState (snd (updateState b t)))) = b
  /\ snd (getState (snd (updateState b t))) = snd (updateState b t)
  /\ length (snd (updateState b t)) = Nat.max 1 (length t).
Proof.
  destruct t as [|row t]; [repeat split; reflexivity|].
  unfold updateState, getState, state_update, state_findFirst.
  cbn -[Z.eqb]. rewrite Z.eqb_refl. cbn -[Z.eqb].
  repeat split; try reflexivity.
  rewrite length_fmap. reflexivity.
Qed.

(** ** Collections *)

Section Collections.

Context {Json : Type} (JSON_parse : string -> Result Json).

Lemma createCollection_stores (c r : DbCollection) (st st' : Store) :
  createCollection JSON_parse c st = Ok (r, st') ->
  collection st' !! (userId c, songId c) = Some (amount r).
Proof.
  destruct c as [u s a]. simpl.
  destruct (collection st !! (u, s)) as [x|] eqn:Hrow.
  - rewrite (createCollection_repeat _ _ _ _ _ _ Hrow). intros [= <- <-].
    apply withCollection_lookup.
  - intros Hcreate.
    destruct (createCollection_first_returns _ _ _ _ _ _ _ Hrow Hcreate)
      as (_ & _ & -> & ->).
    apply withCollection_lookup.
Qed.

(** X8.  An upsert that returns leaves every user, every song and every
    other collection row as they were; the amount it returns is the one
    it stores, and is not below the amount held before when the upserted
    amount is not negative. *)
Theorem createCollection_frame (c : DbCollection) (st : Store) :
  match createCollection JSON_parse c st with
  | Ok (r, st') =>
      user st' = user st /\ song st' = song st
      /\ (forall k, k <> (userId c, songId c) ->
          collection st' !! k = collection st !! k)
      /\ collection st' !! (userId c, songId c) = Some (amount r)
      /\ (0 <= amount c ->
          default 0 (collection st !! (userId c, songId c)) <= amount r)
  | Throw _ => True
  end.
Proof.
  destruct c as [u s a]. simpl.
  destruct (collection st !! (u, s)) as [x|] eqn:Hrow.
  - rewrite (createCollection_repeat _ _ _ _ _ _ Hrow). simpl. repeat split.
    + intros k Hk. apply lookup_insert_ne. congruence.
    + apply lookup_insert_eq.
    + lia.
  - destruct (createCollection JSON_parse (mkCollection u s a) st)
      as [[r st']|e] eqn:Hcreate; [|exact I].
    destruct (createCollection_first_returns _ _ _ _ _ _ _ Hrow Hcreate)
      as (_ & _ & -> & ->).
    simpl. repeat split.
    + intros k Hk. apply lookup_insert_ne. congruence.
    + apply lookup_insert_eq.
    + lia.
Qed.

Section Listing.

Variable orderByAmountDesc : list Collector -> list Collector.
Hypothesis orderBy_perm : forall l, orderByAmountDesc l ≡ₚ l.
Hypothesis orderBy_sorted :
  forall l, StronglySorted amount_desc (orderByAmountDesc l).

(** X9.  After an upsert that returns, on a store that keeps its
    references, the user has a position for the song: it lies between 1
    and the number of the song's collectors, and the collection returned
    with it carries the cumulative amount the upsert returned. *)
Theorem upsert_then_position (c r : DbCollection) (st st' : Store) :
  consistent st -> createCollection JSON_parse c st = Ok (r, st') ->
  exists p,
    getUserCollectionWithPosition orderByAmountDesc (songId c) (userId c) st'
    = Ok (mkCollectionWithPosition
            (Some (withUser st' (userId c, songId c, amount r))) (Some p), st')
    /\ 1 <= p <= Z.of_nat (length (songRows st' (songId c))).
Proof.
  intros Hst Hcreate.
  pose proof (consistent_createCollection JSON_parse c r st st' Hst Hcreate) as Hst'.
  pose proof (createCollection_stores c r st st' Hcreate) as Hrow.
  destruct (collectorsOf_split orderByAmountDesc orderBy_perm orderBy_sorted
              st' (songId c) (userId c) (amount r) Hst' Hrow)
    as (l1 & l2 & Hsplit & Hbefore & _).
  assert (Hme : matchesFid (userId c) (withUser st' (userId c, songId c, amount r)) = true)
    by (apply (matchesFid_withUser st' _ _ _ _ Hst' Hrow); reflexivity).
  exists (Z.of_nat (length l1) + 1).
  rewrite getUserCollectionWithPosition_eq. cbv zeta.
  assert (Hidx : findIndex (matchesFid (userId c))
                   (collectorsOf orderByAmountDesc st' (songId c))
                 = Z.of_nat (length l1)).
  { unfold findIndex. rewrite Hsplit.
    rewrite (findIndex_from_first _ _ _ _ _ Hbefore Hme). lia. }
  rewrite Hidx.
  replace (Z.of_nat (length l1) =? -1)%Z with false
    by (symmetry; apply Z.eqb_neq; lia).
  rewrite Nat2Z.id.
  split.
  - rewrite Hsplit at 1. rewrite list_lookup_middle by reflexivity. reflexivity.
  - split; [lia|].
    assert (Hlen : length (collectorsOf orderByAmountDesc st' (songId c))
                   = length (songRows st' (songId c))).
    { unfold collectorsOf. rewrite orderBy_perm. apply length_fmap. }
    rewrite <- Hlen, Hsplit, length_app. simpl. lia.
Qed.

(** X10.  The collectors listed for a song are the holders of a row for
    that song, each once: every listed row is of the song, a user is
    listed exactly when [isInCollection] says so, and no user is listed
    twice. *)
Theorem collectors_are_the_holders (st : Store) (s : Z) :
  exists l,
    getCollectorsBySongId orderByAmountDesc s st = Ok (l, st)
    /\ (forall c, c ∈ l -> songId (row c) = s)
    /\ (forall u, isInCollection u s st = Ok (true, st)
                  <-> exists c, c ∈ l /\ userId (row c) = u)
    /\ NoDup ((fun c => userId (row c)) <$> l).
Proof.
  exists (collectorsOf orderByAmountDesc st s).
  split; [reflexivity|]. repeat split.
  - intros c Hc.
    apply (elem_of_collectorsOf orderByAmountDesc orderBy_perm) in Hc
      as (u & a & _ & ->). reflexivity.
  - unfold isInCollection, bind, collection_findUnique, ret. simpl.
    destruct (collection st !! (u, s)) as [a|] eqn:Hrow; simpl; [|discriminate].
    intros _. exists (withUser st (u, s, a)). split; [|reflexivity].
    apply (elem_of_collectorsOf orderByAmountDesc orderBy_perm). eauto.
  - intros (c & Hc & Hu).
    apply (elem_of_collectorsOf orderByAmountDesc orderBy_perm) in Hc
      as (u' & a & Hrow & ->). simpl in Hu. subst u'.
    unfold isInCollection, bind, collection_findUnique, ret. simpl.
    rewrite Hrow. reflexivity.
  - unfold collectorsOf. rewrite orderBy_perm, <- list_fmap_compose.
    apply NoDup_fmap_2_strong; [|apply NoDup_songRows].
    intros [[u1 s1] a1] [[u2 s2] a2] H1 H2 Heq. simpl in Heq. subst u2.
    apply elem_of_songRows in H1 as [H1 ->], H2 as [H2 ->].
    congruence.
Qed.

End Listing.

End Collections.

Lemma upsert_then_position_witness :
  exists p,
    getUserCollectionWithPosition sortByAmountDesc 7 1
      (withCollection sampleStore 1 7 10)
    = Ok (mkCollectionWithPosition
            (Some (withUser (withCollection sampleStore 1 7 10) (1, 7, 10)))
            (Some p),
          withCollection sampleStore 1 7 10)
    /\ 1 <= p <= Z.of_nat (length (songRows (withCollection sampleStore 1 7 10) 7)).
Proof.
  apply (upsert_then_position sampleJsonParse sortByAmountDesc sortByAmountDesc_perm
           sortByAmountDesc_sorted (mkCollection 1 7 7) (mkCollection 1 7 10)
           sampleStore (withCollection sampleStore 1 7 10)
           sampleStore_consistent).
  apply (createCollection_repeat sampleJsonParse 1 7 7 3 sampleStore). reflexivity.
Defined.

Lemma collectors_are_the_holders_witness :
  exists l,
    getCollectorsBySongId sortByAmountDesc 7 sampleStore = Ok (l, sampleStore)
    /\ (forall c, c ∈ l -> songId (row c) = 7)
    /\ (forall u, isInCollection u 7 sampleStore = Ok (true, sampleStore)
                  <-> exists c, c ∈ l /\ userId (row c) = u)
    /\ NoDup ((fun c => userId (row c)) <$> l).
Proof.
  apply (collectors_are_the_holders sortByAmountDesc sortByAmountDesc_perm
           sampleStore 7).
Defined.

End GatewayProps.

(* ===================================================================== *)
(** * Part VI: further properties of the mint modal and the admin page *)
(* ===================================================================== *)

Module CheckoutProps.
Import Mint Checkout MintProps.

(** ** Amounts *)

Lemma BigInt_Some (x : Q) (n : Z) : BigInt x = Some n -> (x == inject_Z n)%Q.
Proof.
  unfold BigInt. destruct (Pos.eqb_spec (Qden (Qred x)) 1) as [Hden|]; [|discriminate].
  intros [= Hnum]. rewrite <- (Qred_correct x).
  destruct (Qred x) as [num den]. simpl in *. subst. reflexivity.
Qed.

Lemma Qceiling_of_integer (x : Q) (n : Z) : (x == inject_Z n)%Q -> Qceiling x = n.
Proof. intros Hx. rewrite (Qceiling_comp _ _ Hx). apply Qceiling_Z. Qed.

Lemma price_undefined (s : Snapshot) : (ethUsd s == 0)%Q -> price s = None.
Proof.
  intros Hrate. unfold price. rewrite (Qeq_eq_bool _ _ Hrate). reflexivity.
Qed.

Lemma usdcAmountNumber_monotone (s : Snapshot) (q1 q2 : Z) :
  (0 <= usdPrice s)%Q -> q1 <= q2 ->
  (usdcAmountNumber (with_mintQuantity q1 s)
   <= usdcAmountNumber (with_mintQuantity q2 s))%Q.
Proof.
  intros Hp Hq. unfold usdcAmountNumber; simpl.
  apply Qmult_le_compat_r; [|discriminate].
  rewrite !(Qmult_comm (usdPrice s)).
  apply Qmult_le_compat_r; [|exact Hp].
  rewrite <- Zle_Qle. exact Hq.
Qed.

(** X12.  At a price that is not negative the USDC total required grows
    with the quantity, and at a positive rate so does the ETH total. *)
Theorem required_grows_with_quantity (s : Snapshot) (q1 q2 : Z) :
  (0 <= usdPrice s)%Q -> q1 <= q2 ->
  (exists r1 r2,
     requiredUsdc (with_mintQuantity q1 s) = Some r1
     /\ requiredUsdc (with_mintQuantity q2 s) = Some r2
     /\ r1 <= r2)
  /\ ((0 < ethUsd s)%Q ->
      exists r1 r2,
        requiredEth (with_mintQuantity q1 s) = Some r1
        /\ requiredEth (with_mintQuantity q2 s) = Some r2
        /\ r1 <= r2).
Proof.
  intros Hp Hq. split.
  - rewrite !requiredUsdc_eq. do 2 eexists. repeat split.
    apply Qceiling_resp_le, usdcAmountNumber_monotone; assumption.
  - intros Hrate. unfold requiredEth. rewrite !requiredEthFor_eq.
    unfold ethAmountNumber, safePrice, price; simpl.
    destruct (Qeq_bool (ethUsd s) 0) eqn:E.
    { apply Qeq_bool_eq in E. rewrite E in Hrate. discriminate Hrate. }
    simpl. do 2 eexists. repeat split.
    apply Qceiling_resp_le.
    apply Qmult_le_compat_r; [|discriminate].
    set (p := (usdPrice s / ethUsd s)%Q).
    assert (Hpos : (0 <= p + p * (1 # 100))%Q).
    { assert (0 <= p)%Q.
      { unfold p, Qdiv. apply Qmult_le_0_compat; [exact Hp|].
        apply Qlt_le_weak, Qinv_lt_0_compat, Hrate. }
      apply (Qle_trans _ (0 + 0)%Q); [discriminate|].
      apply Qplus_le_compat; [assumption|].
      apply Qmult_le_0_compat; [assumption | discriminate]. }
    rewrite !(Qmult_comm (p + p * (1 # 100))).
    apply Qmult_le_compat_r; [|exact Hpos].
    rewrite <- Zle_Qle. exact Hq.
Qed.

Lemma required_grows_with_quantity_witness :
  (exists r1 r2,
     requiredUsdc (with_mintQuantity 2 checkout) = Some r1
     /\ requiredUsdc (with_mintQuantity 5 checkout) = Some r2
     /\ r1 <= r2)
  /\ exists r1 r2,
       requiredEth (with_mintQuantity 2 checkout) = Some r1
       /\ requiredEth (with_mintQuantity 5 checkout) = Some r2
       /\ r1 <= r2.
Proof.
  destruct (required_grows_with_quantity checkout 2 5) as [Husdc Heth];
    [discriminate | lia |].
  split; [exact Husdc | apply Heth; reflexivity].
Defined.

(** X13.  An approval that is issued asks for exactly the amount the
    allowance and balance thresholds test; once the allowance holds that
    amount, and the amount is not zero, the allowance check passes and
    the click mints directly.  An allowance of zero never passes the
    check, whatever is required. *)
Theorem approval_meets_the_threshold (rangeErrorMessage : Q -> string)
    (s : Snapshot) (n : Z) (sent : SendCallsOutcome) :
  approveAmount s = Some n ->
  requiredAllowance s = Some n
  /\ requiredUsdc s = Some n
  /\ (is_some (userAddress s) = true -> usdcAllowance s = Some n -> n <> 0 ->
      hasEnoughUsdcAllowance s = Some true
      /\ (paymentMethod s = USDC ->
          mintButtonOnClick rangeErrorMessage s sent
          = handleMint s (mintQuantity s) false))
  /\ (usdcAllowance s = Some 0 -> hasEnoughUsdcAllowance s = Some false).
Proof.
  intros Happrove. apply BigInt_Some in Happrove.
  assert (Hreq : requiredAllowance s = Some n).
  { rewrite requiredAllowance_eq, (Qceiling_of_integer _ _ Happrove). reflexivity. }
  split; [exact Hreq|]. split; [exact Hreq|]. split.
  - intros Haddr Hallow Hn.
    assert (Henough : hasEnoughUsdcAllowance s = Some true).
    { unfold hasEnoughUsdcAllowance. rewrite Hallow, Haddr, Hreq. simpl.
      destruct (Z.eqb_spec n 0); [contradiction|]. simpl.
      rewrite Z.leb_refl. reflexivity. }
    split; [exact Henough|]. intros Hpay.
    unfold mintButtonOnClick. rewrite Hpay, Henough. reflexivity.
  - intros Hallow. unfold hasEnoughUsdcAllowance. rewrite Hallow. reflexivity.
Qed.

Lemma approval_meets_the_threshold_witness :
  requiredAllowance checkout = Some 8000000
  /\ requiredUsdc checkout = Some 8000000.
Proof.
  destruct (approval_meets_the_threshold engineMessage checkout 8000000
              (SendCallsResolves "0xbatch") eq_refl) as (H1 & H2 & _).
  split; [exact H1 | exact H2].
Defined.

(** X14.  At a rate of zero the ETH mint cannot be submitted: the
    division has no finite result, so the action is not enabled and
    [handleMint] writes nothing. *)
Theorem zero_rate_blocks_eth (s : Snapshot) (amount : Z) (isWETH : bool) :
  paymentMethod s = ETH -> (ethUsd s == 0)%Q ->
  mintButtonDisabled s <> Some false
  /\ List.filter is_submission (handleMint s amount isWETH) = [].
Proof.
  intros Hpay Hrate. split.
  - unfold mintButtonDisabled, hasEnoughEthBalance, requiredEth, requiredEthFor,
      ethAmountNumber, safePrice.
    rewrite Hpay, (price_undefined s Hrate).
    destruct (balanceData s), (userAddress s); discriminate.
  - unfold handleMint, mintValue, requiredEthFor, ethAmountNumber, safePrice.
    rewrite Hpay, (price_undefined s Hrate).
    destruct (userAddress s); reflexivity.
Qed.

Lemma zero_rate_blocks_eth_witness :
  mintButtonDisabled noRate <> Some false
  /\ List.filter is_submission (handleMint noRate 2 false) = [].
Proof.
  apply (zero_rate_blocks_eth noRate 2 false); reflexivity.
Defined.

Lemma ordinalSuffix_english_witness :
  ordinalSuffix 112
  = if ((112 / 10) mod 10 =? 1)%Z then "th"
    else match 112 mod 10 with
         | 1 => "st" | 2 => "nd" | 3 => "rd" | _ => "th"
         end.
Proof. apply (ordinalSuffix_english 112). lia. Defined.

Lemma insufficient_balance_disables_witness :
  mintButtonDisabled (with_mintQuantity 5 checkout) = Some true
  /\ mintButtonLabel (with_mintQuantity 5 checkout) = Some "INSUFFICIENT USDC BALANCE"
  /\ clickMintButton engineMessage (with_mintQuantity 5 checkout)
       (SendCallsResolves "0xbatch") = [].
Proof.
  apply (insufficient_balance_disables engineMessage (with_mintQuantity 5 checkout)
           20000000 10000000 (SendCallsResolves "0xbatch"));
    [split; reflexivity | lia].
Defined.

(** ** The click on the mint action *)

Lemma submissions_handleMint (s : Snapshot) (amount : Z) (isWETH : bool) :
  List.filter is_submission (handleMint s amount isWETH) <> [] ->
  is_some (userAddress s) = true.
Proof.
  unfold handleMint. destruct (userAddress s); [reflexivity | intros H; contradiction].
Qed.

Lemma submissions_approveAndMint (rangeErrorMessage : Q -> string)
    (s : Snapshot) (sent : SendCallsOutcome) :
  List.filter is_submission
    (handleApproveAndMintWithSendCalls rangeErrorMessage s sent) <> [] ->
  is_some (userAddress s) = true.
Proof.
  unfold handleApproveAndMintWithSendCalls.
  destruct (userAddress s); [reflexivity | intros H; contradiction].
Qed.

(** X15.  A click puts a transaction before the wallet only from the
    open modal in its [Initial] view, for a connected buyer whose balance
    covers the required total, with no mint being confirmed or awaiting
    its receipt, and in USDC with no bundled call or approval in flight
    either. *)
Theorem click_submits_only_when_ready (rangeErrorMessage : Q -> string)
    (s : Snapshot) (sent : SendCallsOutcome) :
  List.filter is_submission (clickMintButton rangeErrorMessage s sent) <> [] ->
  isOpen s = true /\ mintState s = Initial
  /\ is_some (userAddress s) = true
  /\ write_isPending (mintStatus s) = false
  /\ txInFlight (mintTxHash s) (mintTxResult s) = false
  /\ match paymentMethod s with
     | ETH =>
         exists required balance,
           requiredEth s = Some required /\ balanceData s = Some balance
           /\ required <= balance
     | USDC =>
         exists required balance,
           requiredUsdc s = Some required /\ usdcBalance s = Some balance
           /\ required <= balance
           /\ isSendCallsPending s = false
           /\ write_isPending (allowanceStatus s) = false
           /\ txInFlight (allowanceTxHash s) (allowanceTxResult s) = false
     end.
Proof.
  unfold clickMintButton.
  destruct (isOpen s) eqn:Hopen; [|intros H; contradiction]. simpl.
  destruct (mintState s) eqn:Hstate; simpl; try (intros H; contradiction).
  destruct (mintButtonDisabled s) as [[|]|] eqn:Hdis; try (intros H; contradiction).
  intros Hsub.
  assert (Haddr : is_some (userAddress s) = true).
  { revert Hsub. unfold mintButtonOnClick.
    destruct (paymentMethod s); [apply submissions_handleMint|].
    destruct (hasEnoughUsdcAllowance s) as [[|]|];
      [apply submissions_handleMint | apply submissions_approveAndMint
      | intros H; contradiction]. }
  revert Hdis. unfold mintButtonDisabled.
  destruct (paymentMethod s).
  - unfold hasEnoughEthBalance.
    destruct (balanceData s) as [balance|], (userAddress s) as [a|];
      try discriminate.
    destruct (requiredEth s) as [required|]; [|discriminate].
    intros [= Hdis]. apply orb_false_iff in Hdis as [Hdis Hfly].
    apply orb_false_iff in Hdis as [Hbal Hpend].
    apply negb_false_iff, Z.leb_le in Hbal.
    repeat split; try assumption. exists required, balance. auto.
  - unfold hasEnoughUsdcBalance. rewrite requiredUsdc_eq.
    destruct (usdcBalance s) as [balance|]; simpl;
      [|rewrite Haddr; simpl; discriminate].
    destruct (negb (negb (balance =? 0)%Z) || negb (is_some (userAddress s)));
      [discriminate|].
    intros [= Hdis].
    apply orb_false_iff in Hdis as [Hdis Hfly].
    apply orb_false_iff in Hdis as [Hdis Hpend].
    apply orb_false_iff in Hdis as [Hdis Hafly].
    apply orb_false_iff in Hdis as [Hdis Hapend].
    apply orb_false_iff in Hdis as [Hbal Hflag].
    apply negb_false_iff, Z.leb_le in Hbal.
    repeat split; try assumption.
    exists (Qceiling (usdcAmountNumber s)), balance. auto 10.
Qed.

Lemma click_submits_only_when_ready_witness :
  isOpen checkout = true /\ mintState checkout = Initial
  /\ is_some (userAddress checkout) = true
  /\ write_isPending (mintStatus checkout) = false
  /\ txInFlight (mintTxHash checkout) (mintTxResult checkout) = false
  /\ match paymentMethod checkout with
     | ETH =>
         exists required balance,
           requiredEth checkout = Some required /\ balanceData checkout = Some balance
           /\ required <= balance
     | USDC =>
         exists required balance,
           requiredUsdc checkout = Some required /\ usdcBalance checkout = Some balance
           /\ required <= balance
           /\ isSendCallsPending checkout = false
           /\ write_isPending (allowanceStatus checkout) = false
           /\ txInFlight (allowanceTxHash checkout) (allowanceTxResult checkout) = false
     end.
Proof.
  apply (click_submits_only_when_ready engineMessage checkout
           (SendCallsResolves "0xbatch")).
  discriminate.
Defined.

(** ** What a trace changes *)

Lemma mintState_applyCmd (c : Cmd) (s : Snapshot) :
  sets_mintState c = false -> mintState (applyCmd c s) = mintState s.
Proof. destruct c; try reflexivity. discriminate. Qed.

Lemma flag_applyCmd (c : Cmd) (s : Snapshot) :
  sets_flag c = false -> isSendCallsPending (applyCmd c s) = isSendCallsPending s.
Proof. destruct c; try reflexivity. discriminate. Qed.

Lemma mintState_unchanged (t : Trace) (s : Snapshot) :
  existsb sets_mintState t = false -> mintState (applyTrace t s) = mintState s.
Proof.
  revert s. induction t as [|c t IH]; intros s Hfree; [reflexivity|].
  simpl in Hfree. apply orb_false_iff in Hfree as [Hc Ht].
  change (applyTrace (c :: t) s) with (applyTrace t (applyCmd c s)).
  rewrite (IH _ Ht). apply mintState_applyCmd, Hc.
Qed.

Lemma flag_unchanged (t : Trace) (s : Snapshot) :
  existsb sets_flag t = false ->
  isSendCallsPending (applyTrace t s) = isSendCallsPending s.
Proof.
  revert s. induction t as [|c t IH]; intros s Hfree; [reflexivity|].
  simpl in Hfree. apply orb_false_iff in Hfree as [Hc Ht].
  change (applyTrace (c :: t) s) with (applyTrace t (applyCmd c s)).
  rewrite (IH _ Ht). apply flag_applyCmd, Hc.
Qed.

(** The pipeline touches neither the view, nor the flag, nor a timer. *)
Lemma pipeline_is_quiet (s : Snapshot) (o : PipelineOutcome) :
  existsb sets_mintState (executePostMintLogic s o) = false
  /\ existsb sets_flag (executePostMintLogic s o) = false
  /\ existsb is_clearTimer (executePostMintLogic s o) = false.
Proof.
  unfold executePostMintLogic.
  destruct (truthy_fid (userFid s)); [|auto].
  destruct (postMintExecuted s); [auto|].
  unfold signUpUser, createCollection, sendNotification.
  destruct (createUserResolves o), (createCollectionResult o),
    (sendNotificationResolves o); auto.
Qed.

Lemma pipelineStarts_runs (s : Snapshot) (o : PipelineOutcome) (f : Z) :
  truthy_fid (userFid s) = Some f -> postMintExecuted s = false ->
  pipelineStarts (executePostMintLogic s o) = 1%nat.
Proof.
  intros Hf Hg. rewrite (executePostMintLogic_runs s o f Hf Hg).
  unfold signUpUser, createCollection, sendNotification.
  destruct (createUserResolves o), (createCollectionResult o),
    (sendNotificationResolves o); reflexivity.
Qed.

Lemma handleMint_is_quiet (s : Snapshot) (amount : Z) (isWETH : bool) :
  existsb sets_mintState (handleMint s amount isWETH) = false
  /\ existsb sets_flag (handleMint s amount isWETH) = false
  /\ existsb is_pollTimer (handleMint s amount isWETH) = false.
Proof.
  unfold handleMint. destruct (userAddress s); [|auto].
  destruct (mintValue s amount); auto.
Qed.

Lemma approveAndMintCatch_eq (s : Snapshot) (e : Thrown) :
  exists rest,
    approveAndMintCatch s e = SetIsSendCallsPending false :: rest
    /\ existsb sets_mintState rest = false
    /\ existsb sets_flag rest = false
    /\ existsb is_pollTimer rest = false.
Proof.
  unfold approveAndMintCatch, handleApproveOnly. eexists. split; [reflexivity|].
  destruct e as [message|]; [|auto].
  destruct (includes sendCallsUnsupported message).
  - destruct (userAddress s); [|auto]. destruct (approveAmount s); auto.
  - destruct (negb (includes userRejected message)); auto.
Qed.

Section ClickFacts.

Variable rangeErrorMessage : Q -> string.

(** What the bundled handler leaves behind: either a live poll with the
    flag set, or no poll with the flag cleared. *)
Lemma approveAndMint_outcomes (s : Snapshot) (sent : SendCallsOutcome) :
  let t := handleApproveAndMintWithSendCalls rangeErrorMessage s sent in
  existsb sets_mintState t = false
  /\ (t = []
      \/ (exists a n i,
            sent = SendCallsResolves i
            /\ t = [SetPostMintExecuted false; SetIsSendCallsPending true;
                    SendCalls [(USDC_CONTRACT_ADDRESS, approve CONTRACT_ADDRESS n);
                               (CONTRACT_ADDRESS,
                                mint a (tokenId s) (mintQuantity s) false)];
                    SetSendCallsId i; SetTimeout CheckCallsStatus 2000])
      \/ (existsb is_pollTimer t = false
          /\ forall s0, isSendCallsPending (applyTrace t s0) = false)).
Proof.
  cbv zeta. unfold handleApproveAndMintWithSendCalls.
  destruct (userAddress s) as [a|]; [|auto].
  destruct (approveAmount s) as [n|].
  - destruct sent as [i|e].
    + split; [reflexivity|]. right; left. exists a, n, i. auto.
    + destruct (approveAndMintCatch_eq s e) as (rest & -> & Hst & Hfl & Htm).
      split; [simpl; exact Hst|]. right; right. split; [simpl; exact Htm|].
      intros s0.
      change ([SetPostMintExecuted false; SetIsSendCallsPending true] ++
              SendCalls [(USDC_CONTRACT_ADDRESS, approve CONTRACT_ADDRESS n);
                         (CONTRACT_ADDRESS, mint a (tokenId s) (mintQuantity s) false)]
              :: SetIsSendCallsPending false :: rest)
        with ([SetPostMintExecuted false; SetIsSendCallsPending true;
               SendCalls [(USDC_CONTRACT_ADDRESS, approve CONTRACT_ADDRESS n);
                          (CONTRACT_ADDRESS, mint a (tokenId s) (mintQuantity s) false)];
               SetIsSendCallsPending false] ++ rest).
      rewrite applyTrace_app, (flag_unchanged rest _ Hfl). reflexivity.
  - destruct (approveAndMintCatch_eq s
                (ErrorObject (rangeErrorMessage (usdcAmountNumber s))))
      as (rest & -> & Hst & Hfl & Htm).
    split; [simpl; exact Hst|]. right; right. split; [simpl; exact Htm|].
    intros s0.
    change ([SetPostMintExecuted false; SetIsSendCallsPending true] ++
            SetIsSendCallsPending false :: rest)
      with ([SetPostMintExecuted false; SetIsSendCallsPending true;
             SetIsSendCallsPending false] ++ rest).
    rewrite applyTrace_app, (flag_unchanged rest _ Hfl). reflexivity.
Qed.

(** The outcomes of a click: nothing that touches the flag or a timer,
    or the bundled handler run from a render whose flag is clear. *)
Lemma click_outcomes (s : Snapshot) (sent : SendCallsOutcome) :
  let t := clickMintButton rangeErrorMessage s sent in
  existsb sets_mintState t = false
  /\ ((existsb sets_flag t = false /\ existsb is_pollTimer t = false)
      \/ (isSendCallsPending s = false
          /\ t = handleApproveAndMintWithSendCalls rangeErrorMessage s sent)).
Proof.
  cbv zeta. unfold clickMintButton.
  destruct (isOpen s && is_Initial (mintState s)); [|auto].
  destruct (mintButtonDisabled s) as [[|]|] eqn:Hdis; auto.
  unfold mintButtonOnClick.
  destruct (paymentMethod s) eqn:Hpay.
  - destruct (handleMint_is_quiet s (mintQuantity s) false) as (H1 & H2 & H3). auto.
  - destruct (hasEnoughUsdcAllowance s) as [[|]|]; [| |auto].
    + destruct (handleMint_is_quiet s (mintQuantity s) false) as (H1 & H2 & H3). auto.
    + split; [apply approveAndMint_outcomes|]. right. split; [|reflexivity].
      revert Hdis. unfold mintButtonDisabled. rewrite Hpay.
      destruct (hasEnoughUsdcBalance s) as [enough|]; [|discriminate].
      intros [= Hdis]. destruct (isSendCallsPending s); [|reflexivity].
      rewrite orb_true_r in Hdis. discriminate Hdis.
Qed.

End ClickFacts.

(** ** The view and the flag in the machine *)

Section MachineMore.

Variable rangeErrorMessage : Q -> string.

Local Abbreviation step := (Mint.step rangeErrorMessage).

Lemma mintState_rendered (m : Machine) (s' : Snapshot) (t : Trace) :
  existsb sets_mintState t = false -> mintState s' = mintState (current m) ->
  mintState (current (fst (rendered m s' t))) = mintState (current m).
Proof. intros Ht Hs. simpl. rewrite (mintState_unchanged t s' Ht). exact Hs. Qed.

(** X16.  The view turns to [Success] only on a success of the mint's
    receipt or of the poll of the bundled calls, and to [Confirm] only
    when the wallet reports the mint as pending. *)
Theorem view_transitions (m : Machine) (e : Event) :
  (mintState (current (fst (step m e))) = Success ->
   mintState (current m) = Success
   \/ (exists o, e = MintReceiptEffect ReceiptSuccess o)
   \/ (exists o, e = CheckCallsStatusFires CallsSuccess o))
  /\ (mintState (current (fst (step m e))) = Confirm ->
      mintState (current m) = Confirm \/ e = MintStatusChanges WritePending).
Proof.
  assert (Hkeep : mintState (current (fst (step m e))) = mintState (current m)
                  \/ mintState (current (fst (step m e))) = Initial
                  \/ (e = MintStatusChanges WritePending
                      /\ mintState (current (fst (step m e))) = Confirm)
                  \/ (exists o, e = MintReceiptEffect ReceiptSuccess o)
                  \/ (exists o, e = CheckCallsStatusFires CallsSuccess o)).
  { destruct e as [b|sent| |q|p|r|e0|e0|w|r o|status o| ]; unfold Mint.step.
    - destruct (Bool.eqb b (isOpen (current m))); [left; reflexivity|].
      left. apply mintState_rendered; [|reflexivity].
      unfold refetchOnOpenEffect, isOpenEffect. simpl. destruct b; reflexivity.
    - left. cbn [fst current].
      destruct (click_outcomes rangeErrorMessage (current m) sent) as [Hq _].
      apply mintState_unchanged, Hq.
    - destruct (isOpen (current m)); [right; left; reflexivity | left; reflexivity].
    - left. reflexivity.
    - left. reflexivity.
    - destruct (Bool.eqb _ _); [left; reflexivity|].
      left. apply mintState_rendered; [|reflexivity].
      unfold allowanceTxResultEffect.
      destruct (receipt_isSuccess _); [|reflexivity]. simpl.
      apply handleMint_is_quiet.
    - left. apply mintState_rendered; [|reflexivity].
      unfold allowanceErrorEffect; simpl. destruct e0 as [message|]; [|reflexivity].
      destruct (negb (includes userRejected message)); reflexivity.
    - left. apply mintState_rendered; [|reflexivity].
      unfold mintErrorEffect; simpl. destruct e0 as [message|]; [|reflexivity].
      destruct (negb (includes userRejected message)); reflexivity.
    - destruct w; [left | right; right; left | right; left | left];
        try reflexivity. split; reflexivity.
    - destruct r; [ | | right; right; right; left; eauto];
        unfold mintTxResultEffect, rendered; simpl;
        (destruct (negb (postMintExecuted (current m))); [|left; reflexivity]).
      + left; reflexivity.
      + destruct (negb (is_Initial (mintState (current m))));
          [right; left; reflexivity | left; reflexivity].
    - destruct (poller m) as [[closure i]|]; [|left; reflexivity].
      destruct status; try (left; reflexivity).
      right; right; right; right. eauto.
    - destruct (clearOutstanding m); left; reflexivity. }
  split; intros Hnow.
  - destruct Hkeep as [H|[H|[[_ H]|[H|H]]]];
      [left; congruence | congruence | congruence | auto | auto].
  - destruct Hkeep as [H|[H|[[He _]|[[o ->]|[o ->]]]]];
      [left; congruence | congruence | right; exact He | | ].
    + revert Hnow. unfold Mint.step, mintTxResultEffect, rendered; simpl.
      destruct (negb (postMintExecuted (current m))); simpl; [|].
      * destruct (negb (is_Success (mintState (current m)))); simpl.
        -- fold (applyTrace (executePostMintLogic
                   (with_mintTxResult ReceiptSuccess (current m)) o)
                   (with_mintState Success
                      (with_mintTxResult ReceiptSuccess (current m)))).
           rewrite mintState_unchanged by apply pipeline_is_quiet.
           discriminate.
        -- intros H. left. exact H.
      * intros H. left. exact H.
    + destruct (poller m) as [[closure i]|] eqn:Hp.
      * exfalso. revert Hnow. unfold Mint.step. rewrite Hp. cbn [fst current].
        unfold checkCallsStatus.
        change (GetCallsStatus i :: [SetIsSendCallsPending false; RefetchAllowance]
                ++ executePostMintLogic closure o ++ [SetMintState Success])
          with ([GetCallsStatus i; SetIsSendCallsPending false; RefetchAllowance]
                ++ executePostMintLogic closure o ++ [SetMintState Success]).
        rewrite !applyTrace_app. discriminate.
      * left. revert Hnow. unfold Mint.step. rewrite Hp. auto.
Qed.

End MachineMore.

Lemma view_transitions_witness :
  let m := mkMachine checkout None false in
  mintState (current (fst (step engineMessage m (MintStatusChanges WritePending))))
  = Confirm
  /\ (mintState (current m) = Confirm
      \/ MintStatusChanges WritePending = MintStatusChanges WritePending).
Proof.
  intros m. split; [reflexivity|].
  apply (proj2 (view_transitions engineMessage m (MintStatusChanges WritePending))).
  reflexivity.
Defined.

Section Discipline.

Variable rangeErrorMessage : Q -> string.

Local Abbreviation step := (Mint.step rangeErrorMessage).

Lemma discipline_rendered (m : Machine) (s' : Snapshot) (t : Trace) :
  pollDiscipline m ->
  existsb sets_flag t = false ->
  isSendCallsPending s' = isSendCallsPending (current m) ->
  pollDiscipline (fst (rendered m s' t)).
Proof.
  intros [Hflag Hone] Ht Hs. split; [|exact Hone]. simpl.
  rewrite (flag_unchanged t s' Ht), Hs. exact Hflag.
Qed.

Lemma discipline_idle (m : Machine) :
  pollDiscipline m -> isSendCallsPending (current m) = false ->
  poller m = None /\ clearOutstanding m = false.
Proof.
  intros [Hflag _] Hclear.
  destruct (poller m), (clearOutstanding m); simpl in Hflag;
    try (specialize (Hflag eq_refl); congruence); auto.
Qed.

(** X17.  The discipline of the in-flight flag is kept by every event:
    while a poll is live, or the 5-second timer of a rejected query is
    outstanding, the flag stays set, and the two are never live
    together; so while a poll is live the USDC action is not enabled. *)
Theorem poll_discipline_kept (m : Machine) (e : Event) :
  pollDiscipline m ->
  pollDiscipline (fst (step m e))
  /\ (is_some (poller m) = true -> paymentMethod (current m) = USDC ->
      mintButtonDisabled (current m) <> Some false).
Proof.
  intros Hm. split.
  - destruct e as [b|sent| |q|p|r|e0|e0|w|r o|status o| ]; unfold Mint.step.
    + destruct (Bool.eqb b (isOpen (current m))); [exact Hm|].
      apply discipline_rendered; [exact Hm | | reflexivity].
      unfold refetchOnOpenEffect, isOpenEffect. simpl. destruct b; reflexivity.
    + destruct (click_outcomes rangeErrorMessage (current m) sent)
        as [_ [[Hfl Htm]|[Hclear Hbundled]]].
      * rewrite Htm. destruct Hm as [Hflag Hone]. split; simpl.
        -- rewrite (flag_unchanged _ _ Hfl).
           destruct sent; exact Hflag.
        -- destruct sent; exact Hone.
      * destruct (discipline_idle m Hm Hclear) as [Hp Hc].
        rewrite Hbundled, Hp, Hc.
        destruct (approveAndMint_outcomes rangeErrorMessage (current m) sent)
          as [_ [Hnil|[(a & n & i & -> & Ht)|[Htm Hoff]]]].
        -- rewrite Hnil. split; simpl; destruct sent; (discriminate || reflexivity).
        -- rewrite Ht. split; simpl; [reflexivity | reflexivity].
        -- rewrite Htm. split; simpl.
           ++ destruct sent; discriminate.
           ++ destruct sent; reflexivity.
    + destruct (isOpen (current m)); [|exact Hm].
      apply discipline_rendered; [exact Hm | reflexivity | reflexivity].
    + apply discipline_rendered; [exact Hm | reflexivity | reflexivity].
    + apply discipline_rendered; [exact Hm | reflexivity | reflexivity].
    + destruct (Bool.eqb _ _);
        (apply discipline_rendered; [exact Hm | | reflexivity]); [reflexivity|].
      unfold allowanceTxResultEffect.
      destruct (receipt_isSuccess _); [|reflexivity]. simpl.
      apply handleMint_is_quiet.
    + apply discipline_rendered; [exact Hm | | reflexivity].
      unfold allowanceErrorEffect; simpl. destruct e0 as [message|]; [|reflexivity].
      destruct (negb (includes userRejected message)); reflexivity.
    + apply discipline_rendered; [exact Hm | | reflexivity].
      unfold mintErrorEffect; simpl. destruct e0 as [message|]; [|reflexivity].
      destruct (negb (includes userRejected message)); reflexivity.
    + apply discipline_rendered; [exact Hm | | reflexivity].
      unfold mintStatusEffect; simpl. destruct w; reflexivity.
    + apply discipline_rendered; [exact Hm | | reflexivity].
      unfold mintTxResultEffect; simpl.
      destruct (negb (postMintExecuted (current m))); [|reflexivity].
      destruct r; [reflexivity | |].
      * destruct (negb (is_Initial (mintState (current m)))); reflexivity.
      * destruct (negb (is_Success (mintState (current m))) && _); [|reflexivity].
        simpl. apply pipeline_is_quiet.
    + destruct (poller m) as [[closure i]|] eqn:Hp; [|exact Hm].
      destruct Hm as [Hflag Hone]. rewrite Hp in Hflag, Hone.
      simpl in Hone. rewrite Hone. simpl in Hflag. specialize (Hflag eq_refl).
      destruct status.
      * (* success *)
        assert (Htm : existsb is_pollTimer (checkCallsStatus closure i CallsSuccess o) = false).
        { simpl. rewrite existsb_app, timers_pipeline. reflexivity. }
        assert (Hct : existsb is_clearTimer (checkCallsStatus closure i CallsSuccess o) = false).
        { simpl. rewrite existsb_app.
          destruct (pipeline_is_quiet closure o) as (_ & _ & ->). reflexivity. }
        rewrite Htm, Hct. split; simpl; [discriminate | reflexivity].
      * split; simpl; [intros _; exact Hflag | reflexivity].
      * split; simpl; [discriminate | reflexivity].
      * split; simpl; [discriminate | reflexivity].
      * split; simpl; [intros _; exact Hflag | reflexivity].
    + destruct (clearOutstanding m) eqn:Hc; [|exact Hm].
      destruct Hm as [Hflag Hone]. rewrite Hc, andb_true_r in Hone.
      split; simpl; [rewrite Hone; discriminate | apply andb_false_r].
  - intros Hlive Hpay. destruct Hm as [Hflag _].
    rewrite Hlive in Hflag. specialize (Hflag eq_refl).
    unfold mintButtonDisabled. rewrite Hpay, Hflag.
    destruct (hasEnoughUsdcBalance (current m)) as [enough|]; [|discriminate].
    rewrite orb_true_r. discriminate.
Qed.

End Discipline.

Lemma poll_discipline_kept_witness :
  let m := mkMachine checkout None false in
  pollDiscipline m
  /\ pollDiscipline (fst (step engineMessage m (ClickMint (SendCallsResolves "0xbatch")))).
Proof.
  intros m.
  assert (Hm : pollDiscipline m) by (split; [discriminate | reflexivity]).
  split; [exact Hm|].
  apply (poll_discipline_kept engineMessage m
           (ClickMint (SendCallsResolves "0xbatch")) Hm).
Defined.

(** ** The pipeline and who runs it *)

(** X18.  For a buyer without a Farcaster fid (or with fid 0) the
    post-mint logic issues nothing, not even the guard; a success of the
    receipt, and a success of the poll, still turn the view to
    [Success]. *)
Theorem without_fid_success_only (s : Snapshot) (i : string) (o : PipelineOutcome) :
  truthy_fid (userFid s) = None ->
  executePostMintLogic s o = []
  /\ (mintTxResult s = ReceiptSuccess -> mintState s <> Success ->
      postMintExecuted s = false ->
      mintTxResultEffect s o = [SetMintState Success])
  /\ checkCallsStatus s i CallsSuccess o
     = [GetCallsStatus i; SetIsSendCallsPending false; RefetchAllowance;
        SetMintState Success].
Proof.
  intros Hfid.
  assert (Hnone : executePostMintLogic s o = [])
    by (unfold executePostMintLogic; rewrite Hfid; reflexivity).
  split; [exact Hnone|]. split.
  - intros Hr Hstate Hg. unfold mintTxResultEffect. rewrite Hr, Hg, Hnone.
    destruct (mintState s); try reflexivity. contradiction.
  - unfold checkCallsStatus. rewrite Hnone. reflexivity.
Qed.

Lemma without_fid_success_only_witness :
  executePostMintLogic outsideFarcaster allResolve = []
  /\ mintTxResultEffect outsideFarcaster allResolve = [SetMintState Success].
Proof.
  destruct (without_fid_success_only outsideFarcaster "0xbatch" allResolve eq_refl)
    as (H1 & H2 & _).
  split; [exact H1|]. apply H2; [reflexivity | discriminate | reflexivity].
Defined.

Section Closures.

Variable rangeErrorMessage : Q -> string.

Local Abbreviation step := (Mint.step rangeErrorMessage).

(** A click that sets the poll timer ran the bundled handler to its
    end. *)
Lemma click_with_timer (s : Snapshot) (sent : SendCallsOutcome) :
  existsb is_pollTimer (clickMintButton rangeErrorMessage s sent) = true ->
  exists a n i,
    sent = SendCallsResolves i
    /\ clickMintButton rangeErrorMessage s sent
       = [SetPostMintExecuted false; SetIsSendCallsPending true;
          SendCalls [(USDC_CONTRACT_ADDRESS, approve CONTRACT_ADDRESS n);
                     (CONTRACT_ADDRESS, mint a (tokenId s) (mintQuantity s) false)];
          SetSendCallsId i; SetTimeout CheckCallsStatus 2000].
Proof.
  intros Htimer.
  destruct (click_outcomes rangeErrorMessage s sent) as [_ [[_ Hno]|[_ Hbundled]]];
    [congruence|].
  rewrite Hbundled in *.
  destruct (approveAndMint_outcomes rangeErrorMessage s sent)
    as [_ [Hnil|[(a & n & i & Hsent & Ht)|[Hno _]]]].
  - rewrite Hnil in Htimer. discriminate.
  - exists a, n, i. auto.
  - congruence.
Qed.

(** X19.  The poll runs the post-mint logic of the render in which the
    bundled call was submitted.  Submitted from a render whose guard is
    set, the handler resets the guard, yet the success of its poll runs
    no step of the pipeline: it clears the flag, refetches the allowance
    and sets [Success]. *)
Theorem stale_guard_skips_pipeline (m : Machine) (i : string) (o : PipelineOutcome) :
  postMintExecuted (current m) = true ->
  existsb is_pollTimer (snd (step m (ClickMint (SendCallsResolves i)))) = true ->
  let m1 := fst (step m (ClickMint (SendCallsResolves i))) in
  postMintExecuted (current m1) = false
  /\ snd (step m1 (CheckCallsStatusFires CallsSuccess o))
     = [GetCallsStatus i; SetIsSendCallsPending false; RefetchAllowance;
        SetMintState Success].
Proof.
  intros Hg Htimer. cbv zeta.
  unfold Mint.step in Htimer. cbn [snd] in Htimer.
  destruct (click_with_timer _ _ Htimer) as (a & n & i' & Hsent & Ht).
  injection Hsent as <-.
  assert (Hm1 : fst (step m (ClickMint (SendCallsResolves i)))
                = mkMachine
                    (applyTrace
                       (clickMintButton rangeErrorMessage (current m)
                          (SendCallsResolves i)) (current m))
                    (Some (current m, i)) (clearOutstanding m)).
  { unfold Mint.step. cbn [fst]. rewrite Htimer. reflexivity. }
  rewrite Hm1. split.
  - cbn [current]. rewrite Ht. reflexivity.
  - unfold Mint.step. cbn [poller snd]. unfold checkCallsStatus.
    rewrite (executePostMintLogic_refused _ o Hg). reflexivity.
Qed.

(** X20.  Closing the modal does not stop a live poll: the poll keeps
    its closure, and its success afterwards issues the same commands and
    leaves the view in [Success]. *)
Theorem close_keeps_polling (m : Machine) (closure : Snapshot) (i : string)
    (o : PipelineOutcome) :
  poller m = Some (closure, i) ->
  let m1 := fst (step m ClickClose) in
  poller m1 = Some (closure, i)
  /\ snd (step m1 (CheckCallsStatusFires CallsSuccess o))
     = checkCallsStatus closure i CallsSuccess o
  /\ mintState (current (fst (step m1 (CheckCallsStatusFires CallsSuccess o))))
     = Success.
Proof.
  intros Hp. cbv zeta.
  assert (Hp1 : poller (fst (step m ClickClose)) = Some (closure, i)).
  { unfold Mint.step. destruct (isOpen (current m)); exact Hp. }
  split; [exact Hp1|].
  set (m1 := fst (step m ClickClose)) in *.
  unfold Mint.step. rewrite Hp1. cbn [fst snd current].
  split; [reflexivity|].
  unfold checkCallsStatus.
  change (GetCallsStatus i :: [SetIsSendCallsPending false; RefetchAllowance]
          ++ executePostMintLogic closure o ++ [SetMintState Success])
    with ([GetCallsStatus i; SetIsSendCallsPending false; RefetchAllowance]
          ++ executePostMintLogic closure o ++ [SetMintState Success]).
  rewrite !applyTrace_app. reflexivity.
Qed.

End Closures.

Lemma stale_guard_skips_pipeline_witness :
  let m := mkMachine guarded None false in
  let m1 := fst (step engineMessage m (ClickMint (SendCallsResolves "0xbatch"))) in
  postMintExecuted (current m1) = false
  /\ snd (step engineMessage m1 (CheckCallsStatusFires CallsSuccess allResolve))
     = [GetCallsStatus "0xbatch"; SetIsSendCallsPending false; RefetchAllowance;
        SetMintState Success].
Proof.
  intros m.
  apply (stale_guard_skips_pipeline engineMessage m "0xbatch" allResolve);
    reflexivity.
Defined.

Lemma close_keeps_polling_witness :
  let m := fst (step engineMessage (mkMachine checkout None false)
                     (ClickMint (SendCallsResolves "0xbatch"))) in
  let m1 := fst (step engineMessage m ClickClose) in
  poller m1 = Some (checkout, "0xbatch")
  /\ snd (step engineMessage m1 (CheckCallsStatusFires CallsSuccess allResolve))
     = checkCallsStatus checkout "0xbatch" CallsSuccess allResolve
  /\ mintState
       (current (fst (step engineMessage m1
                           (CheckCallsStatusFires CallsSuccess allResolve))))
     = Success.
Proof.
  intros m.
  apply (close_keeps_polling engineMessage m checkout "0xbatch" allResolve).
  reflexivity.
Defined.

(** X21.  Every mint that [handleMint] submits re-arms the pipeline:
    whatever the guard was, it is clear afterwards, and for a buyer with
    a fid the next success of the receipt starts the pipeline once. *)
Theorem handleMint_rearms (s : Snapshot) (a : string) (f : Z)
    (amount : Z) (isWETH : bool) (o : PipelineOutcome) :
  userAddress s = Some a -> truthy_fid (userFid s) = Some f ->
  mintState s <> Success ->
  let s1 := applyTrace (handleMint s amount isWETH) s in
  postMintExecuted s1 = false
  /\ pipelineStarts (mintTxResultEffect (with_mintTxResult ReceiptSuccess s1) o)
     = 1%nat.
Proof.
  intros Ha Hf Hstate. cbv zeta.
  assert (Hs1 : exists s1,
            applyTrace (handleMint s amount isWETH) s = s1
            /\ postMintExecuted s1 = false /\ mintState s1 = mintState s
            /\ userFid s1 = userFid s).
  { unfold handleMint. rewrite Ha.
    destruct (mintValue s amount); eexists; (split; [reflexivity|]); auto. }
  destruct Hs1 as (s1 & -> & Hg & Hms & Hfid).
  split; [exact Hg|].
  unfold mintTxResultEffect. simpl. rewrite Hg, Hms. simpl.
  destruct (mintState s) eqn:E; try contradiction; simpl;
    change (pipelineStarts (SetMintState Success ::
              executePostMintLogic (with_mintTxResult ReceiptSuccess s1) o))
      with (pipelineStarts
              (executePostMintLogic (with_mintTxResult ReceiptSuccess s1) o));
    apply (pipelineStarts_runs _ o f); simpl; congruence.
Qed.

Lemma handleMint_rearms_witness :
  postMintExecuted (applyTrace (handleMint guarded 2 false) guarded) = false
  /\ pipelineStarts
       (mintTxResultEffect
          (with_mintTxResult ReceiptSuccess
             (applyTrace (handleMint guarded 2 false) guarded)) allResolve)
     = 1%nat.
Proof.
  apply (handleMint_rearms guarded "0xbuyer" 42 2 false allResolve);
    [reflexivity | reflexivity | discriminate].
Defined.

(** ** The quantity controls *)

Lemma quantityStep_keeps_bounds (v : QuantityView) (e : QuantityEvent) :
  quantityInBounds v -> quantityInBounds (quantityStep v e).
Proof.
  unfold quantityInBounds, WAY_MORE_MAX, WAY_MORE_MIN.
  intros [Hq Hopen]. destruct e as [q| |value]; simpl.
  - destruct (bool_decide_reflect (q ∈ presetQuantities)) as [Hin|]; [|auto].
    simpl. split; [|discriminate].
    unfold presetQuantities in Hin.
    repeat (apply elem_of_cons in Hin as [->|Hin]; [lia|]).
    by apply not_elem_of_nil in Hin.
  - unfold clickWayMore, WAY_MORE_MIN.
    destruct (truthy_string (wayMoreAccordionValue v)); simpl.
    + split; [exact Hq | discriminate].
    + destruct (Z.ltb_spec (quantity v) 11); simpl; split; try lia; intros _; lia.
  - unfold WAY_MORE_MIN, WAY_MORE_MAX.
    destruct (String.eqb_spec (wayMoreAccordionValue v) "more") as [Hmore|];
      [|simpl; auto].
    destruct (Z.leb_spec 11 value); [|simpl; auto].
    destruct (Z.leb_spec value 1000); simpl; [|auto].
    split; [lia | intros _; lia].
Qed.

(** X22.  From a quantity between 1 and 1000 the preset buttons, the
    WAY MORE button and the slider keep the quantity between 1 and 1000,
    keep it at 11 or more while the accordion is open, and hand the
    slider a value between its minimum and its maximum. *)
Theorem quantity_stays_in_bounds (events : list QuantityEvent) (v : QuantityView) :
  quantityInBounds v ->
  quantityInBounds (quantityRun events v)
  /\ WAY_MORE_MIN <= sliderValue (quantityRun events v) <= WAY_MORE_MAX.
Proof.
  intros Hv.
  assert (Hrun : quantityInBounds (quantityRun events v)).
  { revert v Hv. induction events as [|e events IH]; intros v Hv; [exact Hv|].
    apply IH, quantityStep_keeps_bounds, Hv. }
  split; [exact Hrun|].
  destruct Hrun as [Hq _]. unfold sliderValue, WAY_MORE_MIN, WAY_MORE_MAX in *.
  destruct (Z.ltb_spec (quantity (quantityRun events v)) 11); lia.
Qed.

Lemma quantity_stays_in_bounds_witness :
  quantityInBounds (mkQuantityView 1 "")
  /\ quantityInBounds
       (quantityRun [ClickWayMore; Slide 5000; Slide 250; ClickPreset 3;
                     ClickWayMore; ClickPreset 5]
                    (mkQuantityView 1 ""))
  /\ WAY_MORE_MIN
     <= sliderValue
          (quantityRun [ClickWayMore; Slide 5000; Slide 250; ClickPreset 3;
                        ClickWayMore; ClickPreset 5]
                       (mkQuantityView 1 ""))
     <= WAY_MORE_MAX.
Proof.
  assert (H0 : quantityInBounds (mkQuantityView 1 "")).
  { unfold quantityInBounds, WAY_MORE_MAX; simpl. split; [lia | discriminate]. }
  split; [exact H0|].
  apply (quantity_stays_in_bounds _ (mkQuantityView 1 "") H0).
Defined.

End CheckoutProps.

Module AdminProps.
Import Admin.

Lemma click_keeps_view (st : AdminState) (c : Click) :
  render true st = menuView (modalOpen st)
  \/ (exists a, render true st = formView a (modalOpen st)) ->
  render true (click true st c) = menuView (modalOpen (click true st c))
  \/ (exists a, render true (click true st c)
                = formView a (modalOpen (click true st c))).
Proof.
  intros Hview.
  assert (Hst : (showForm st = false /\ selectedAction st = None)
                \/ (showForm st = true /\ exists a, selectedAction st = Some a)).
  { destruct st as [[|] [[|]|] modal]; destruct Hview as [H|[[|] H]];
      try discriminate H; eauto. }
  destruct st as [sf sel modal]. simpl in Hst.
  destruct Hst as [[-> ->]|[-> [a ->]]].
  - destruct c as [|[|]|b|];
      first [left; reflexivity
            | right; exists CreateSongSale; reflexivity
            | right; exists SendNotification; reflexivity].
  - destruct a, c as [|[|]|b|];
      first [left; reflexivity
            | right; exists CreateSongSale; reflexivity
            | right; exists SendNotification; reflexivity].
Qed.

(** X23.  Whatever an admin clicks, the page shows either the menu (the
    prelaunch switch and the two action buttons) or one form with its
    title and the way back, never both and never two forms; whoever is
    not an admin is shown the refusal alone, and no click changes
    anything. *)
Theorem admin_page_views (cs : list Click) (st0 : AdminState) :
  (let st := clicks true cs initialState in
   render true st = menuView (modalOpen st)
   \/ exists a, render true st = formView a (modalOpen st))
  /\ render false (clicks false cs st0) = [PermissionDenied]
  /\ clicks false cs st0 = st0.
Proof.
  split; [|split].
  - cbv zeta.
    assert (Hgen : forall st,
              render true st = menuView (modalOpen st)
              \/ (exists a, render true st = formView a (modalOpen st)) ->
              render true (clicks true cs st) = menuView (modalOpen (clicks true cs st))
              \/ (exists a, render true (clicks true cs st)
                            = formView a (modalOpen (clicks true cs st)))).
    { induction cs as [|c cs IH]; intros st Hst; [exact Hst|].
      apply IH, click_keeps_view, Hst. }
    apply Hgen. left. reflexivity.
  - reflexivity.
  - revert st0. induction cs as [|c cs IH]; intros st0; [reflexivity|].
    simpl. replace (click false st0 c) with st0; [apply IH|].
    destruct c as [|a|b|]; try reflexivity. destruct a; reflexivity.
Qed.

(** The page of an admin who opens the notification form and a modal,
    goes back, and opens the sale form. *)
Example admin_walk :
  render true
    (clicks true [OnActionButton SendNotification; FormSetsModalOpen true;
                  OnActionButton CreateSongSale; OnGoBack; OnCloseModal;
                  OnActionButton CreateSongSale] initialState)
  = formView CreateSongSale false.
Proof. reflexivity. Qed.

End AdminProps.
